(** * Anomaly-risk pipeline of the voting application

    A shallow embedding of

    - [supabase/functions/anomaly-detection/index.ts]: the edge function
      that asks the vision model about one camera frame, parses its reply
      and computes the weighted risk score, and
    - [src/hooks/useAnomalyDetection] and [src/components/WebcamMonitor.tsx]:
      the React hook that folds successive results into the session refs,
      and the component whose timer drives the cycles.

    JavaScript numbers are modelled by [Z]: every number the code computes
    itself (risk scores, counters) is a small integer, and the model covers
    face counts that are integers in the range where JavaScript arithmetic
    and printing are exact. *)

From Stdlib Require Import ZArith List String Ascii Bool Lia DecimalString.
From Stdlib Require Import Permutation.
Import ListNotations.
Open Scope string_scope.
Open Scope Z_scope.

(** ** JavaScript values *)

(** The values [JSON.parse] can return, plus [undefined], which is what
    reading an absent property gives. Objects keep their properties in
    insertion order. *)
#[warnings="-register-all"]
Inductive jsval : Type :=
| VUndefined
| VNull
| VBool (b : bool)
| VNum (n : Z)
| VStr (s : string)
| VArr (elems : list jsval)
| VObj (props : list (string * jsval)).

(** Result of the abstract operation ToNumber. *)
Inductive jsnum : Type :=
| NaN
| Num (n : Z).

(** The two built-ins of the platform the edge function relies on and that
    are not code of the repository: [JSON.parse] ([None] when it throws a
    SyntaxError) and the conversion of a string to a number. *)
Class Builtins : Type := {
  JSON_parse : string -> option jsval;
  StringToNumber : string -> jsnum
}.

Definition Z_to_string (n : Z) : string := NilZero.string_of_int (Z.to_int n).

Fixpoint join (sep : string) (l : list string) : string :=
  match l with
  | [] => ""
  | [x] => x
  | x :: rest => x ++ sep ++ join sep rest
  end.

(** ToString, as applied by a template literal. An array prints its
    elements separated by commas, [null] and [undefined] elements as the
    empty string; a plain object prints as [[object Object]]. The
    conversion of an object that has a property of its own named
    [toString] throws a TypeError in the source instead; the function
    describes the values that convert. *)
Fixpoint ToString (v : jsval) : string :=
  match v with
  | VUndefined => "undefined"
  | VNull => "null"
  | VBool true => "true"
  | VBool false => "false"
  | VNum n => Z_to_string n
  | VStr s => s
  | VArr elems =>
      join "," (map (fun e => match e with
                              | VUndefined | VNull => ""
                              | _ => ToString e
                              end) elems)
  | VObj _ => "[object Object]"
  end.

(** ToNumber; arrays and objects go through their string form, and
    convert when that form exists (see [ToString]). *)
Definition ToNumber {B : Builtins} (v : jsval) : jsnum :=
  match v with
  | VUndefined => NaN
  | VNull => Num 0
  | VBool true => Num 1
  | VBool false => Num 0
  | VNum n => Num n
  | VStr s => StringToNumber s
  | VArr _ | VObj _ => StringToNumber (ToString v)
  end.

(** ToBoolean: the test of an [if], and the operand of [!] and [&&]. *)
Definition truthy (v : jsval) : bool :=
  match v with
  | VUndefined | VNull => false
  | VBool b => b
  | VNum n => negb (n =? 0)
  | VStr s => negb (String.eqb s "")
  | VArr _ | VObj _ => true
  end.

(** [v > k] and [v >= k] for a number literal [k]: false on NaN. *)
Definition js_gt {B : Builtins} (v : jsval) (k : Z) : bool :=
  match ToNumber v with
  | Num n => k <? n
  | NaN => false
  end.

Definition js_ge {B : Builtins} (v : jsval) (k : Z) : bool :=
  match ToNumber v with
  | Num n => k <=? n
  | NaN => false
  end.

(** [v === k] for a number literal [k]: no conversion. *)
Definition js_strict_eq (v : jsval) (k : Z) : bool :=
  match v with
  | VNum n => n =? k
  | _ => false
  end.

Fixpoint lookup (k : string) (props : list (string * jsval)) : option jsval :=
  match props with
  | [] => None
  | (k', v) :: rest => if String.eqb k k' then Some v else lookup k rest
  end.

(** Property read [v.k] on a value that is not [null] or [undefined]. None
    of the property names read by the code is defined on the prototypes of
    numbers, strings, booleans or arrays. *)
Definition get (v : jsval) (k : string) : jsval :=
  match v with
  | VObj props => match lookup k props with Some x => x | None => VUndefined end
  | _ => VUndefined
  end.

(** Property reads on [null] and [undefined] throw a TypeError. *)
Definition nullish (v : jsval) : bool :=
  match v with
  | VUndefined | VNull => true
  | _ => false
  end.

(** Assignment of a property while an object is built: an existing
    property keeps its place and takes the new value. *)
Fixpoint obj_set (k : string) (v : jsval) (props : list (string * jsval))
  : list (string * jsval) :=
  match props with
  | [] => [(k, v)]
  | (k', v') :: rest =>
      if String.eqb k k' then (k', v) :: rest else (k', v') :: obj_set k v rest
  end.

(** ** The edge function: [anomaly-detection/index.ts] *)

Inductive Status : Type := normal | flagged | warning | analyzing | idle.

(** The [previousState] of the request body: what the hook remembered of
    the cycle before. *)
Module PreviousState.
Record t : Type := mk {
  faceDetected : bool;
  faceCount : jsval
}.
End PreviousState.

(** [interface AnalysisResult]. The fields copied from the model's reply
    are whatever the reply held; [faceLost] is [undefined] when the request
    carried no previous state. *)
Module AnalysisResult.
Record t : Type := mk {
  faceCount : jsval;
  faceDetected : bool;
  faceLost : jsval;
  cameraBlocked : jsval;
  highMotion : jsval;
  anomalyFlags : list string;
  riskScore : Z;
  status : Status
}.
End AnalysisResult.

(** [textContent.match(/\{[\s\S]*\}/)]: the match starts at the first
    opening brace and, the star being greedy, ends at the last closing
    brace after it. *)
Fixpoint from_first_open (s : string) : option string :=
  match s with
  | EmptyString => None
  | String c rest =>
      if Ascii.eqb c "{" then Some s else from_first_open rest
  end.

Fixpoint upto_last_close (s : string) : option string :=
  match s with
  | EmptyString => None
  | String c rest =>
      match upto_last_close rest with
      | Some m => Some (String c m)
      | None => if Ascii.eqb c "}" then Some (String c EmptyString) else None
      end
  end.

Definition jsonMatch (textContent : string) : option string :=
  match from_first_open textContent with
  | Some s => upto_last_close s
  | None => None
  end.

(** The object literal of the [catch] branch. *)
Definition defaultSafeResponse : jsval :=
  VObj [ ("faceCount", VNum 1);
         ("cameraBlocked", VBool false);
         ("highMotion", VBool false);
         ("environmentStable", VBool true);
         ("confidence", VNum 50) ].

(** Lines 104-124: both the [throw] of the [else] branch and a SyntaxError
    of [JSON.parse] end in the [catch] branch. *)
Definition parseGeminiResponse {B : Builtins} (textContent : string) : jsval :=
  match jsonMatch textContent with
  | Some m =>
      match JSON_parse m with
      | Some parsed => parsed
      | None => defaultSafeResponse
      end
  | None => defaultSafeResponse
  end.

(** Lines 170-176. *)
Definition determineStatus (riskScore : Z) : Status :=
  if 50 <? riskScore then flagged
  else if 25 <? riskScore then warning
  else normal.

(** [array.push(x)]. *)
Definition push {A : Type} (array : list A) (x : A) : list A :=
  (array ++ [x])%list.

(** Lines 126-187: the score, the flags and the result object.
    [riskScore] and [anomalyFlags] are the two mutable locals, threaded
    through the six [if] statements in the order of the source. *)
Definition analyse {B : Builtins}
    (geminiAnalysis : jsval) (previousState : option PreviousState.t)
  : AnalysisResult.t :=
  let riskScore := 0 in
  let anomalyFlags : list string := [] in
  let '(riskScore, anomalyFlags) :=
    if js_gt (get geminiAnalysis "faceCount") 1
    then (riskScore + 40,
          push anomalyFlags ("Multiple faces detected: "
                             ++ ToString (get geminiAnalysis "faceCount")))
    else (riskScore, anomalyFlags) in
  let '(riskScore, anomalyFlags) :=
    if js_strict_eq (get geminiAnalysis "faceCount") 0
    then (riskScore + 20, push anomalyFlags "No face detected")
    else (riskScore, anomalyFlags) in
  let faceLost :=
    match previousState with
    | None => VUndefined
    | Some p =>
        if PreviousState.faceDetected p
        then VBool (js_strict_eq (get geminiAnalysis "faceCount") 0)
        else VBool false
    end in
  let '(riskScore, anomalyFlags) :=
    if truthy faceLost
    then (riskScore + 30, push anomalyFlags "Face suddenly disappeared")
    else (riskScore, anomalyFlags) in
  let '(riskScore, anomalyFlags) :=
    if truthy (get geminiAnalysis "cameraBlocked")
    then (riskScore + 30, push anomalyFlags "Camera appears blocked")
    else (riskScore, anomalyFlags) in
  let '(riskScore, anomalyFlags) :=
    if truthy (get geminiAnalysis "highMotion")
    then (riskScore + 20, push anomalyFlags "Unusual motion detected")
    else (riskScore, anomalyFlags) in
  let '(riskScore, anomalyFlags) :=
    if negb (truthy (get geminiAnalysis "environmentStable"))
    then (riskScore + 10, push anomalyFlags "Environment instability detected")
    else (riskScore, anomalyFlags) in
  let riskScore := Z.min riskScore 100 in
  let status := determineStatus riskScore in
  {| AnalysisResult.faceCount := get geminiAnalysis "faceCount";
     AnalysisResult.faceDetected := js_ge (get geminiAnalysis "faceCount") 1;
     AnalysisResult.faceLost := faceLost;
     AnalysisResult.cameraBlocked := get geminiAnalysis "cameraBlocked";
     AnalysisResult.highMotion := get geminiAnalysis "highMotion";
     AnalysisResult.anomalyFlags := anomalyFlags;
     AnalysisResult.riskScore := riskScore;
     AnalysisResult.status := status |}.

(** The request: its method and what [await req.json()] gives, either the
    message of the error it throws or the two properties the handler
    destructures. *)
Record RequestBody : Type := {
  frameData : option string;
  previousState : option PreviousState.t
}.

Record Request : Type := {
  method : string;
  json : string + RequestBody
}.

(** What the call of the vision model comes to. *)
Inductive GeminiOutcome : Type :=
| FetchRejects (message : string)
| NotOk (status : Z) (errorText : string)
| BodyRejects (message : string)
| Reply (textContent : string).

Inductive Response : Type :=
| Preflight
| ErrorResponse (status : Z) (error : string) (details : option string)
| ResultResponse (result : AnalysisResult.t).

Definition falsy_string (s : option string) : bool :=
  match s with
  | None => true
  | Some s => String.eqb s ""
  end.

(** The handler passed to [serve]. [apiKey] is [Deno.env.get] of the key;
    [gemini] is consulted only when the handler reaches the [fetch]. The
    frame of the request is a string or absent, and the [faceCount] of the
    reply is a value that converts: on any other the source throws inside
    the [try] and answers 500 from the [catch]. *)
Definition serve {B : Builtins}
    (req : Request) (apiKey : option string) (gemini : GeminiOutcome)
  : Response :=
  if String.eqb (method req) "OPTIONS" then Preflight
  else
    match json req with
    | inl message => ErrorResponse 500 message None
    | inr body =>
        if falsy_string (frameData body)
        then ErrorResponse 400 "No frame data provided" None
        else if falsy_string apiKey
        then ErrorResponse 500 "API key not configured" None
        else
          match gemini with
          | FetchRejects message => ErrorResponse 500 message None
          | NotOk _ errorText =>
              ErrorResponse 500 "AI analysis failed" (Some errorText)
          | BodyRejects message => ErrorResponse 500 message None
          | Reply textContent =>
              let geminiAnalysis := parseGeminiResponse textContent in
              if nullish geminiAnalysis
              then ErrorResponse 500
                     "Cannot read properties of null (reading 'faceCount')" None
              else ResultResponse (analyse geminiAnalysis (previousState body))
          end
    end.

(** ** A reference instance of the built-ins

    A parser for the JSON texts whose numbers are integers and whose
    strings use only the two-character escapes. On these texts it returns
    what [JSON.parse] returns; on a text with a fraction, an exponent or a
    [\u] escape it returns [None] although [JSON.parse] accepts the text,
    so it is used on texts of the fragment only. *)

Definition dquote : ascii := "034"%char.
Definition backslash : ascii := "092"%char.

Definition is_ws (c : ascii) : bool :=
  Ascii.eqb c " " || Ascii.eqb c "009" || Ascii.eqb c "010" || Ascii.eqb c "013".

Fixpoint skip_ws (s : string) : string :=
  match s with
  | String c rest => if is_ws c then skip_ws rest else s
  | EmptyString => s
  end.

Definition digit_of (c : ascii) : option Z :=
  let n := Z.of_nat (nat_of_ascii c) in
  if (48 <=? n) && (n <=? 57) then Some (n - 48) else None.

Fixpoint digits (acc : Z) (s : string) : Z * string :=
  match s with
  | String c rest =>
      match digit_of c with
      | Some d => digits (10 * acc + d) rest
      | None => (acc, s)
      end
  | EmptyString => (acc, s)
  end.

Definition starts_with (c : ascii) (s : string) : bool :=
  match s with
  | String c' _ => Ascii.eqb c c'
  | EmptyString => false
  end.

(** [int] of the JSON grammar: a single zero, or a nonzero digit followed
    by digits. *)
Definition parse_int (s : string) : option (Z * string) :=
  match s with
  | String c rest =>
      match digit_of c with
      | Some 0 => Some (0, rest)
      | Some d => Some (digits d rest)
      | None => None
      end
  | EmptyString => None
  end.

Definition parse_number (s : string) : option (Z * string) :=
  let '(sign, s') :=
    match s with
    | String c rest => if Ascii.eqb c "-" then (-1, rest) else (1, s)
    | EmptyString => (1, s)
    end in
  match parse_int s' with
  | Some (n, rest) =>
      if starts_with "." rest || starts_with "e" rest || starts_with "E" rest
      then None
      else Some (sign * n, rest)
  | None => None
  end.

Definition unescape (c : ascii) : option ascii :=
  if Ascii.eqb c dquote then Some dquote
  else if Ascii.eqb c backslash then Some backslash
  else if Ascii.eqb c "/" then Some "/"%char
  else if Ascii.eqb c "b" then Some "008"%char
  else if Ascii.eqb c "f" then Some "012"%char
  else if Ascii.eqb c "n" then Some "010"%char
  else if Ascii.eqb c "r" then Some "013"%char
  else if Ascii.eqb c "t" then Some "009"%char
  else None.

(** The characters of a string after its opening quote, up to the closing
    one. A raw control character is a syntax error. *)
Fixpoint parse_string (s : string) : option (string * string) :=
  match s with
  | EmptyString => None
  | String c rest =>
      if Ascii.eqb c dquote then Some (EmptyString, rest)
      else if Ascii.eqb c backslash then
        match rest with
        | String e rest' =>
            match unescape e, parse_string rest' with
            | Some x, Some (t, after) => Some (String x t, after)
            | _, _ => None
            end
        | EmptyString => None
        end
      else if (nat_of_ascii c <? 32)%nat then None
      else
        match parse_string rest with
        | Some (t, after) => Some (String c t, after)
        | None => None
        end
  end.

Fixpoint strip_prefix (p s : string) : option string :=
  match p, s with
  | EmptyString, _ => Some s
  | String a p', String b s' => if Ascii.eqb a b then strip_prefix p' s' else None
  | String _ _, EmptyString => None
  end.

Definition parse_literal (s : string) : option (jsval * string) :=
  match strip_prefix "true" s, strip_prefix "false" s, strip_prefix "null" s with
  | Some rest, _, _ => Some (VBool true, rest)
  | _, Some rest, _ => Some (VBool false, rest)
  | _, _, Some rest => Some (VNull, rest)
  | _, _, _ =>
      match parse_number s with
      | Some (n, rest) => Some (VNum n, rest)
      | None => None
      end
  end.

(** Values, the members of an object after its brace or a comma, and the
    elements of an array after its bracket or a comma. A repeated key
    overwrites the earlier value. Of two calls in a row at least one
    consumes a character, so twice the length of the text is fuel
    enough. *)
Fixpoint parse_value (fuel : nat) (s : string) {struct fuel}
  : option (jsval * string) :=
  match fuel with
  | O => None
  | S fuel' =>
      match skip_ws s with
      | EmptyString => None
      | String c rest =>
          if Ascii.eqb c "{" then
            match skip_ws rest with
            | EmptyString => None
            | String c' rest' =>
                if Ascii.eqb c' "}" then Some (VObj [], rest')
                else parse_members fuel' [] rest
            end
          else if Ascii.eqb c "[" then
            match skip_ws rest with
            | EmptyString => None
            | String c' rest' =>
                if Ascii.eqb c' "]" then Some (VArr [], rest')
                else parse_elements fuel' [] rest
            end
          else if Ascii.eqb c dquote then
            match parse_string rest with
            | Some (t, after) => Some (VStr t, after)
            | None => None
            end
          else parse_literal (String c rest)
      end
  end
with parse_members (fuel : nat) (acc : list (string * jsval)) (s : string)
  {struct fuel} : option (jsval * string) :=
  match fuel with
  | O => None
  | S fuel' =>
      match skip_ws s with
      | EmptyString => None
      | String c rest =>
          if Ascii.eqb c dquote then
            match parse_string rest with
            | Some (key, after_key) =>
                match skip_ws after_key with
                | EmptyString => None
                | String colon after_colon =>
                    if Ascii.eqb colon ":" then
                      match parse_value fuel' after_colon with
                      | Some (v, after_value) =>
                          match skip_ws after_value with
                          | EmptyString => None
                          | String d after =>
                              if Ascii.eqb d "," then
                                parse_members fuel' (obj_set key v acc) after
                              else if Ascii.eqb d "}" then
                                Some (VObj (obj_set key v acc), after)
                              else None
                          end
                      | None => None
                      end
                    else None
                end
            | None => None
            end
          else None
      end
  end
with parse_elements (fuel : nat) (acc : list jsval) (s : string)
  {struct fuel} : option (jsval * string) :=
  match fuel with
  | O => None
  | S fuel' =>
      match parse_value fuel' s with
      | Some (v, after_value) =>
          match skip_ws after_value with
          | EmptyString => None
          | String d after =>
              if Ascii.eqb d "," then parse_elements fuel' (push acc v) after
              else if Ascii.eqb d "]" then Some (VArr (push acc v), after)
              else None
          end
      | None => None
      end
  end.

Definition parse_json (text : string) : option jsval :=
  match parse_value (2 * String.length text + 2) text with
  | Some (v, rest) =>
      match skip_ws rest with
      | EmptyString => Some v
      | String _ _ => None
      end
  | None => None
  end.

(** The strings that are an optionally signed run of decimal digits
    between white space, and the empty string; other strings are outside
    the fragment and get [NaN]. *)
Definition number_of_string (s : string) : jsnum :=
  match skip_ws s with
  | EmptyString => Num 0
  | String c rest =>
      let '(sign, body) :=
        if Ascii.eqb c "-" then (-1, rest)
        else if Ascii.eqb c "+" then (1, rest)
        else (1, String c rest) in
      match body with
      | EmptyString => NaN
      | String d _ =>
          match digit_of d with
          | None => NaN
          | Some _ =>
              let '(n, after) := digits 0 body in
              match skip_ws after with
              | EmptyString => Num (sign * n)
              | String _ _ => NaN
              end
          end
      end
  end.

Definition reference_builtins : Builtins :=
  {| JSON_parse := parse_json; StringToNumber := number_of_string |}.

(** JSON texts are written with apostrophes for the double quotes. *)
Fixpoint json_text (s : string) : string :=
  match s with
  | EmptyString => EmptyString
  | String c rest =>
      String (if Ascii.eqb c "'" then dquote else c) (json_text rest)
  end.

(** ** The hook: [useAnomalyDetection] *)

Module AnomalyState.
Record t : Type := mk {
  faceCount : jsval;
  faceDetected : bool;
  faceLost : jsval;
  cameraBlocked : jsval;
  highMotion : jsval;
  environmentStable : bool;
  anomalyFlags : list string;
  riskScore : Z;
  status : Status;
  isAnalyzing : bool;
  error : option string
}.
End AnomalyState.

Module VoteMetadata.
Record t : Type := mk {
  riskScore : Z;
  anomalyFlags : bool;
  flagHistory : list string;
  analysisCount : Z;
  maxRiskScore : Z
}.
End VoteMetadata.

(** The object [getVoteRiskData] returns. *)
Module VoteRiskData.
Record t : Type := mk {
  riskScore : Z;
  anomalyFlags : bool;
  flagDetails : list string;
  analysisCount : Z;
  isFlagged : bool
}.
End VoteRiskData.

Definition initialState : AnomalyState.t :=
  {| AnomalyState.faceCount := VNum 0;
     AnomalyState.faceDetected := false;
     AnomalyState.faceLost := VBool false;
     AnomalyState.cameraBlocked := VBool false;
     AnomalyState.highMotion := VBool false;
     AnomalyState.environmentStable := true;
     AnomalyState.anomalyFlags := [];
     AnomalyState.riskScore := 0;
     AnomalyState.status := idle;
     AnomalyState.isAnalyzing := false;
     AnomalyState.error := None |}.

Definition initialVoteMetadata : VoteMetadata.t :=
  {| VoteMetadata.riskScore := 0;
     VoteMetadata.anomalyFlags := false;
     VoteMetadata.flagHistory := [];
     VoteMetadata.analysisCount := 0;
     VoteMetadata.maxRiskScore := 0 |}.

(** The two pieces of React state and the four refs of the hook. *)
Record Hook : Type := {
  state : AnomalyState.t;
  voteMetadata : VoteMetadata.t;
  previousStateRef : option PreviousState.t;
  analysisCountRef : Z;
  flagHistoryRef : list string;
  maxRiskScoreRef : Z
}.

Definition initialHook : Hook :=
  {| state := initialState;
     voteMetadata := initialVoteMetadata;
     previousStateRef := None;
     analysisCountRef := 0;
     flagHistoryRef := [];
     maxRiskScoreRef := 0 |}.

(** What [await supabase.functions.invoke(...)] comes to: the promise
    rejects ([err.message] when [err] is an [Error]), or it resolves to a
    pair of [data] and [error]. *)
Inductive InvokeOutcome : Type :=
| Rejects (message : option string)
| Resolves (data : option AnalysisResult.t) (error : option string).

Definition set_isAnalyzing (prev : AnomalyState.t) : AnomalyState.t :=
  {| AnomalyState.faceCount := AnomalyState.faceCount prev;
     AnomalyState.faceDetected := AnomalyState.faceDetected prev;
     AnomalyState.faceLost := AnomalyState.faceLost prev;
     AnomalyState.cameraBlocked := AnomalyState.cameraBlocked prev;
     AnomalyState.highMotion := AnomalyState.highMotion prev;
     AnomalyState.environmentStable := AnomalyState.environmentStable prev;
     AnomalyState.anomalyFlags := AnomalyState.anomalyFlags prev;
     AnomalyState.riskScore := AnomalyState.riskScore prev;
     AnomalyState.status := analyzing;
     AnomalyState.isAnalyzing := true;
     AnomalyState.error := AnomalyState.error prev |}.

Definition set_error (message : string) (prev : AnomalyState.t)
  : AnomalyState.t :=
  {| AnomalyState.faceCount := AnomalyState.faceCount prev;
     AnomalyState.faceDetected := AnomalyState.faceDetected prev;
     AnomalyState.faceLost := AnomalyState.faceLost prev;
     AnomalyState.cameraBlocked := AnomalyState.cameraBlocked prev;
     AnomalyState.highMotion := AnomalyState.highMotion prev;
     AnomalyState.environmentStable := AnomalyState.environmentStable prev;
     AnomalyState.anomalyFlags := AnomalyState.anomalyFlags prev;
     AnomalyState.riskScore := AnomalyState.riskScore prev;
     AnomalyState.status := warning;
     AnomalyState.isAnalyzing := false;
     AnomalyState.error := Some message |}.

Definition with_state (h : Hook) (st : AnomalyState.t) : Hook :=
  {| state := st;
     voteMetadata := voteMetadata h;
     previousStateRef := previousStateRef h;
     analysisCountRef := analysisCountRef h;
     flagHistoryRef := flagHistoryRef h;
     maxRiskScoreRef := maxRiskScoreRef h |}.

(** [analyzeFrame] up to its [await]: the state update, and the
    [previousState] put in the body of the request. *)
Definition analyzeFrame_call (h : Hook) : Hook * option PreviousState.t :=
  (with_state h (set_isAnalyzing (state h)), previousStateRef h).

Definition nonempty {A : Type} (l : list A) : bool :=
  match l with
  | [] => false
  | _ :: _ => true
  end.

(** The body of the [try] after the [await], on a [data] that is an
    object and no [error]. *)
Definition analyzeFrame_success (h : Hook) (data : AnalysisResult.t) : Hook :=
  let previousStateRef' :=
    Some {| PreviousState.faceDetected := AnalysisResult.faceDetected data;
            PreviousState.faceCount := AnalysisResult.faceCount data |} in
  let analysisCountRef' := analysisCountRef h + 1 in
  let flagHistoryRef' :=
    if nonempty (AnalysisResult.anomalyFlags data)
    then (flagHistoryRef h ++ AnalysisResult.anomalyFlags data)%list
    else flagHistoryRef h in
  let maxRiskScoreRef' :=
    Z.max (maxRiskScoreRef h) (AnalysisResult.riskScore data) in
  {| state :=
       {| AnomalyState.faceCount := AnalysisResult.faceCount data;
          AnomalyState.faceDetected := AnalysisResult.faceDetected data;
          AnomalyState.faceLost := AnalysisResult.faceLost data;
          AnomalyState.cameraBlocked := AnalysisResult.cameraBlocked data;
          AnomalyState.highMotion := AnalysisResult.highMotion data;
          AnomalyState.environmentStable :=
            negb (truthy (AnalysisResult.cameraBlocked data))
            && negb (truthy (AnalysisResult.highMotion data));
          AnomalyState.anomalyFlags := AnalysisResult.anomalyFlags data;
          AnomalyState.riskScore := AnalysisResult.riskScore data;
          AnomalyState.status := AnalysisResult.status data;
          AnomalyState.isAnalyzing := false;
          AnomalyState.error := None |};
     voteMetadata :=
       {| VoteMetadata.riskScore := AnalysisResult.riskScore data;
          VoteMetadata.anomalyFlags := nonempty (AnalysisResult.anomalyFlags data);
          VoteMetadata.flagHistory := flagHistoryRef';
          VoteMetadata.analysisCount := analysisCountRef';
          VoteMetadata.maxRiskScore := maxRiskScoreRef' |};
     previousStateRef := previousStateRef';
     analysisCountRef := analysisCountRef';
     flagHistoryRef := flagHistoryRef';
     maxRiskScoreRef := maxRiskScoreRef' |}.

(** The [catch] branch. *)
Definition analyzeFrame_catch (h : Hook) (message : option string) : Hook :=
  with_state h
    (set_error (match message with
                | Some m => m
                | None => "Analysis failed"
                end) (state h)).

(** [analyzeFrame] from its [await] on: the hook afterwards and the value
    returned, [None] for [null]. With [data] null and no [error], the read
    of [data.faceDetected] throws before any ref is written. *)
Definition analyzeFrame_settle (h : Hook) (o : InvokeOutcome)
  : Hook * option AnalysisResult.t :=
  match o with
  | Rejects message => (analyzeFrame_catch h message, None)
  | Resolves _ (Some message) => (with_state h (set_error message (state h)), None)
  | Resolves None None =>
      (analyzeFrame_catch h
         (Some "Cannot read properties of null (reading 'faceDetected')"), None)
  | Resolves (Some data) None => (analyzeFrame_success h data, Some data)
  end.

Definition reset (h : Hook) : Hook :=
  {| state := initialState;
     voteMetadata :=
       {| VoteMetadata.riskScore := 0;
          VoteMetadata.anomalyFlags := false;
          VoteMetadata.flagHistory := [];
          VoteMetadata.analysisCount := 0;
          VoteMetadata.maxRiskScore := 0 |};
     previousStateRef := None;
     analysisCountRef := 0;
     flagHistoryRef := [];
     maxRiskScoreRef := 0 |}.

(** [[...new Set(array)]]: the first occurrence of each string, in order. *)
Definition Set_add (set : list string) (x : string) : list string :=
  if existsb (String.eqb x) set then set else push set x.

Definition Set_from (array : list string) : list string :=
  fold_left Set_add array [].

Definition getVoteRiskData (h : Hook) : VoteRiskData.t :=
  {| VoteRiskData.riskScore := maxRiskScoreRef h;
     VoteRiskData.anomalyFlags := nonempty (flagHistoryRef h);
     VoteRiskData.flagDetails := Set_from (flagHistoryRef h);
     VoteRiskData.analysisCount := analysisCountRef h;
     VoteRiskData.isFlagged := 50 <? maxRiskScoreRef h |}.

(** [supabase.functions.invoke] on the response of the edge function: the
    parsed body as [data] on a 2xx status with a body, an [error] on any
    other status. The body travels as JSON text; on the values of
    [jsval], whose numbers are all finite, writing it and reading it back
    changes nothing (a property that is [undefined] is left out and read
    as [undefined]). The hook only posts, so the answer to a preflight
    never reaches it. *)
Definition invoke_outcome (r : Response) : InvokeOutcome :=
  match r with
  | ResultResponse result => Resolves (Some result) None
  | ErrorResponse _ _ _ =>
      Resolves None (Some "Edge Function returned a non-2xx status code")
  | Preflight => Resolves None None
  end.

(** ** The component: [WebcamMonitor] *)

(** [inFlight] holds the calls of the edge function that have not settled
    yet, each with the [previousState] it was sent with; [riskUpdates] is
    the sequence of arguments [onRiskUpdate] has been called with. *)
Record Component : Type := {
  isActive : bool;
  hasPermission : option bool;
  hook : Hook;
  inFlight : list (option PreviousState.t);
  riskUpdates : list VoteRiskData.t
}.

Definition initialComponent : Component :=
  {| isActive := false;
     hasPermission := None;
     hook := initialHook;
     inFlight := [];
     riskUpdates := [] |}.

(** What the event loop runs: [startCamera] (with whether the camera was
    granted), [stopCamera], a firing of the timeout or of the interval
    ([ready]: the video and canvas exist, a 2d context was obtained and
    the video has enough data), and the settling of the [i]-th call in
    flight. *)
Inductive Event : Type :=
| StartCamera (granted : bool)
| StopCamera
| Tick (ready : bool)
| Settle (i : nat) (o : InvokeOutcome).

Fixpoint remove_nth {A : Type} (i : nat) (l : list A) : list A :=
  match i, l with
  | _, [] => []
  | O, _ :: rest => rest
  | S i', x :: rest => x :: remove_nth i' rest
  end.

Definition startCamera (granted : bool) (c : Component) : Component :=
  if granted
  then {| isActive := true;
          hasPermission := Some true;
          hook := hook c;
          inFlight := inFlight c;
          riskUpdates := riskUpdates c |}
  else {| isActive := isActive c;
          hasPermission := Some false;
          hook := hook c;
          inFlight := inFlight c;
          riskUpdates := riskUpdates c |}.

(** The stream and the interval are released; a call in flight is not. *)
Definition stopCamera (c : Component) : Component :=
  {| isActive := false;
     hasPermission := hasPermission c;
     hook := reset (hook c);
     inFlight := inFlight c;
     riskUpdates := riskUpdates c |}.

(** [captureAndAnalyze] up to the [await] inside [analyzeFrame]: the two
    early returns, then the call. *)
Definition captureAndAnalyze_call (ready : bool) (c : Component) : Component :=
  if negb (isActive c) then c
  else if negb ready then c
  else
    let '(h, sent) := analyzeFrame_call (hook c) in
    {| isActive := isActive c;
       hasPermission := hasPermission c;
       hook := h;
       inFlight := push (inFlight c) sent;
       riskUpdates := riskUpdates c |}.

(** [captureAndAnalyze] from the [await] on. *)
Definition captureAndAnalyze_settle (i : nat) (o : InvokeOutcome) (c : Component)
  : Component :=
  match nth_error (inFlight c) i with
  | None => c
  | Some _ =>
      let '(h, result) := analyzeFrame_settle (hook c) o in
      {| isActive := isActive c;
         hasPermission := hasPermission c;
         hook := h;
         inFlight := remove_nth i (inFlight c);
         riskUpdates :=
           match result with
           | Some _ => push (riskUpdates c) (getVoteRiskData h)
           | None => riskUpdates c
           end |}
  end.

Definition step (c : Component) (e : Event) : Component :=
  match e with
  | StartCamera granted => startCamera granted c
  | StopCamera => stopCamera c
  | Tick ready => captureAndAnalyze_call ready c
  | Settle i o => captureAndAnalyze_settle i o c
  end.

Definition run (c : Component) (trace : list Event) : Component :=
  fold_left step trace c.

Definition is_tick (e : Event) : bool :=
  match e with
  | Tick _ => true
  | _ => false
  end.

Definition is_stop (e : Event) : bool :=
  match e with
  | StopCamera => true
  | _ => false
  end.

Definition ticks (trace : list Event) : nat :=
  List.length (filter is_tick trace).

(** A request as the hook sends it. *)
Definition post (frame : string) (prior : option PreviousState.t) : Request :=
  {| method := "POST";
     json := inr {| frameData := Some frame; previousState := prior |} |}.

(** One cycle against the edge function: the call, the handler, the
    settling. *)
Definition cycle {B : Builtins}
    (h : Hook) (frame : string) (apiKey : option string) (gemini : GeminiOutcome)
  : Hook * option AnalysisResult.t :=
  let '(h1, sent) := analyzeFrame_call h in
  analyzeFrame_settle h1
    (invoke_outcome (serve (post frame sent) apiKey gemini)).

(** What the session keeps outside the rendered state: the four refs. *)
Definition aggregator (h : Hook)
  : Z * list string * Z * option PreviousState.t :=
  (maxRiskScoreRef h, flagHistoryRef h, analysisCountRef h, previousStateRef h).

(** The model's call failed: the request was not answered, or answered
    with an error status, or with a body that is not JSON. *)
Definition transport_failure (gemini : GeminiOutcome) : bool :=
  match gemini with
  | Reply _ => false
  | FetchRejects _ | NotOk _ _ | BodyRejects _ => true
  end.

(** ** The reply the prompt asks for, and the scoring table of the
       specification *)

(** An object with the five properties of the prompt, each of its type. *)
Record Observation : Type := {
  faceCount : Z;
  cameraBlocked : bool;
  highMotion : bool;
  environmentStable : bool;
  confidence : Z
}.

Definition observation_object (o : Observation) : jsval :=
  VObj [ ("faceCount", VNum (faceCount o));
         ("cameraBlocked", VBool (cameraBlocked o));
         ("highMotion", VBool (highMotion o));
         ("environmentStable", VBool (environmentStable o));
         ("confidence", VNum (confidence o)) ].

(** The table of the specification, row by row: condition, weight, flag
    text. *)
Record Rule : Type := {
  condition : Observation -> option PreviousState.t -> bool;
  weight : Z;
  flagText : Observation -> string
}.

Definition prior_faceDetected (prior : option PreviousState.t) : bool :=
  match prior with
  | Some p => PreviousState.faceDetected p
  | None => false
  end.

Definition spec_table : list Rule :=
  [ {| condition := fun o _ => 1 <? faceCount o;
       weight := 40;
       flagText := fun o =>
         "Multiple faces detected: " ++ Z_to_string (faceCount o) |};
    {| condition := fun o _ => faceCount o =? 0;
       weight := 20;
       flagText := fun _ => "No face detected" |};
    {| condition := fun o prior =>
         prior_faceDetected prior && (faceCount o =? 0);
       weight := 30;
       flagText := fun _ => "Face suddenly disappeared" |};
    {| condition := fun o _ => cameraBlocked o;
       weight := 30;
       flagText := fun _ => "Camera appears blocked" |};
    {| condition := fun o _ => highMotion o;
       weight := 20;
       flagText := fun _ => "Unusual motion detected" |};
    {| condition := fun o _ => negb (environmentStable o);
       weight := 10;
       flagText := fun _ => "Environment instability detected" |} ].

Definition matched (o : Observation) (prior : option PreviousState.t)
  : list Rule :=
  filter (fun r => condition r o prior) spec_table.

Definition spec_riskScore (o : Observation) (prior : option PreviousState.t) : Z :=
  Z.min 100 (fold_right Z.add 0 (map weight (matched o prior))).

Definition spec_flags (o : Observation) (prior : option PreviousState.t)
  : list string :=
  map (fun r => flagText r o) (matched o prior).

(** ** The image sent to the model *)

(** [\w] of a regular expression without the unicode flag. *)
Definition is_word (c : ascii) : bool :=
  let n := nat_of_ascii c in
  ((48 <=? n) && (n <=? 57) || (65 <=? n) && (n <=? 90)
   || (97 <=? n) && (n <=? 122) || (n =? 95))%nat.

Fixpoint skip_word (s : string) : string :=
  match s with
  | String c rest => if is_word c then skip_word rest else s
  | EmptyString => s
  end.

(** [frameData.replace(/^data:image\/\w+;base64,/, '')], line 77. The
    run of word characters is taken whole: a shorter run would be followed
    by a word character, not by the semicolon. *)
Definition inline_data (frameData : string) : string :=
  match strip_prefix "data:image/" frameData with
  | Some rest =>
      match rest with
      | String c _ =>
          if is_word c then
            match strip_prefix ";base64," (skip_word rest) with
            | Some data => data
            | None => frameData
            end
          else frameData
      | EmptyString => frameData
      end
  | None => frameData
  end.

Fixpoint occurs (c : ascii) (s : string) : bool :=
  match s with
  | EmptyString => false
  | String c' rest => Ascii.eqb c' c || occurs c rest
  end.

Fixpoint all_word (s : string) : bool :=
  match s with
  | EmptyString => true
  | String c rest => is_word c && all_word rest
  end.

(** ** The component against the edge function *)

(** What happens to the component when the calls it starts are answered
    by the handler: the user starts or stops the camera, the timer fires,
    the [i]-th call in flight is answered by the handler (which receives
    the [previousState] the call was sent with), or fails on the way. *)
Inductive Happening : Type :=
| UserStarts (granted : bool)
| UserStops
| TimerFires (ready : bool)
| CallAnswered (i : nat) (frame : string) (apiKey : option string)
    (gemini : GeminiOutcome)
| CallFails (i : nat) (message : option string).

Definition event_of {B : Builtins} (c : Component) (x : Happening) : Event :=
  match x with
  | UserStarts granted => StartCamera granted
  | UserStops => StopCamera
  | TimerFires ready => Tick ready
  | CallAnswered i frame apiKey gemini =>
      Settle i
        (invoke_outcome
           (serve (post frame (nth i (inFlight c) None)) apiKey gemini))
  | CallFails i message => Settle i (Rejects message)
  end.

Definition system_step {B : Builtins} (c : Component) (x : Happening)
  : Component :=
  step c (event_of c x).

Definition system_run {B : Builtins} (c : Component) (xs : list Happening)
  : Component :=
  fold_left system_step xs c.

Definition is_granted (e : Event) : bool :=
  match e with
  | StartCamera true => true
  | _ => false
  end.

(** ** What the component renders of the state *)

(** What [WebcamMonitor] returns, by the conditions of its JSX. An
    indicator is [None] when it is not rendered and [Some good] when it
    is, green for [good]. *)
Module View.
Record t : Type := mk {
  permissionDenied : bool;
  analyzing : bool;
  riskBadge : bool;
  faceDetectedGood : option bool;
  singleVoterGood : option bool;
  environmentStableGood : option bool;
  anomalyAlert : bool;
  verificationActive : bool
}.
End View.

Definition is_normal (s : Status) : bool :=
  match s with
  | normal => true
  | _ => false
  end.

Definition is_analyzing (s : Status) : bool :=
  match s with
  | analyzing => true
  | _ => false
  end.

(** The three returns of the component, in the order of the source: the
    request for camera access when [hasPermission === false] (line 161),
    the compact row when [compact] (line 183), where the indicators give
    way to a spinner while the status is [analyzing] and the risk badge
    depends on the score alone, and the full view (line 230), where the
    overlay and the badge sit inside the preview. *)
Definition render
    (compact previewVisible : bool) (hasPermission : option bool)
    (st : AnomalyState.t) : View.t :=
  match hasPermission with
  | Some false =>
      {| View.permissionDenied := true;
         View.analyzing := false;
         View.riskBadge := false;
         View.faceDetectedGood := None;
         View.singleVoterGood := None;
         View.environmentStableGood := None;
         View.anomalyAlert := false;
         View.verificationActive := false |}
  | _ =>
      if compact then
        let spinner := is_analyzing (AnomalyState.status st) in
        {| View.permissionDenied := false;
           View.analyzing := spinner;
           View.riskBadge := 0 <? AnomalyState.riskScore st;
           View.faceDetectedGood :=
             if spinner then None else Some (AnomalyState.faceDetected st);
           View.singleVoterGood :=
             if spinner then None
             else Some (js_strict_eq (AnomalyState.faceCount st) 1);
           View.environmentStableGood :=
             if spinner then None
             else Some (AnomalyState.environmentStable st);
           View.anomalyAlert := false;
           View.verificationActive := false |}
      else
        {| View.permissionDenied := false;
           View.analyzing := previewVisible && AnomalyState.isAnalyzing st;
           View.riskBadge :=
             previewVisible
             && ((0 <? AnomalyState.riskScore st)
                 && negb (AnomalyState.isAnalyzing st));
           View.faceDetectedGood := Some (AnomalyState.faceDetected st);
           View.singleVoterGood :=
             Some (js_strict_eq (AnomalyState.faceCount st) 1);
           View.environmentStableGood :=
             Some (AnomalyState.environmentStable st);
           View.anomalyAlert := nonempty (AnomalyState.anomalyFlags st);
           View.verificationActive :=
             is_normal (AnomalyState.status st)
             && AnomalyState.faceDetected st |}
  end.

(** The full view is the one returned when camera access was not refused
    and the component is not compact. *)
Definition full_view (compact : bool) (hasPermission : option bool) : bool :=
  negb compact
  && match hasPermission with
     | Some false => false
     | _ => true
     end.

(** ** What holds of every result of the handler, and of the hook fed
       with such results *)

Definition result_coherent (data : AnalysisResult.t) : Prop :=
  0 <= AnalysisResult.riskScore data <= 100
  /\ (AnalysisResult.riskScore data = 0
      <-> AnalysisResult.anomalyFlags data = [])
  /\ (js_strict_eq (AnalysisResult.faceCount data) 1 = true
      -> AnalysisResult.faceDetected data = true)
  /\ AnalysisResult.status data
     = determineStatus (AnalysisResult.riskScore data).

Definition hook_coherent (h : Hook) : Prop :=
  let st := state h in
  0 <= AnomalyState.riskScore st <= maxRiskScoreRef h
  /\ maxRiskScoreRef h <= 100
  /\ (0 < maxRiskScoreRef h -> flagHistoryRef h <> [])
  /\ (AnomalyState.riskScore st = 0 <-> AnomalyState.anomalyFlags st = [])
  /\ (js_strict_eq (AnomalyState.faceCount st) 1 = true
      -> AnomalyState.faceDetected st = true)
  /\ (AnomalyState.status st = flagged -> 50 < AnomalyState.riskScore st)
  /\ (AnomalyState.status st = normal -> AnomalyState.riskScore st <= 25).

(** The hook after the successful cycles whose results are [results], in
    the order in which they settled. *)
Definition settle_all (h : Hook) (results : list AnalysisResult.t) : Hook :=
  fold_left analyzeFrame_success results h.

(** * Properties *)

(** ** Reading the reply object *)

Section Scorer.
Context {B : Builtins}.

Lemma js_gt_num (n k : Z) : js_gt (VNum n) k = (k <? n).
Proof. reflexivity. Qed.

Lemma js_ge_num (n k : Z) : js_ge (VNum n) k = (k <=? n).
Proof. reflexivity. Qed.

Lemma get_faceCount (o : Observation) :
  get (observation_object o) "faceCount" = VNum (faceCount o).
Proof. reflexivity. Qed.

Lemma get_cameraBlocked (o : Observation) :
  get (observation_object o) "cameraBlocked" = VBool (cameraBlocked o).
Proof. reflexivity. Qed.

Lemma get_highMotion (o : Observation) :
  get (observation_object o) "highMotion" = VBool (highMotion o).
Proof. reflexivity. Qed.

Lemma get_environmentStable (o : Observation) :
  get (observation_object o) "environmentStable"
  = VBool (environmentStable o).
Proof. reflexivity. Qed.

(** The score depends on the reply only through four property reads. *)
Lemma analyse_reads (g1 g2 : jsval) (prior : option PreviousState.t) :
  get g1 "faceCount" = get g2 "faceCount" ->
  get g1 "cameraBlocked" = get g2 "cameraBlocked" ->
  get g1 "highMotion" = get g2 "highMotion" ->
  get g1 "environmentStable" = get g2 "environmentStable" ->
  analyse g1 prior = analyse g2 prior.
Proof.
  intros Hf Hc Hm He. unfold analyse.
  rewrite Hf, Hc, Hm, He. reflexivity.
Qed.

Lemma riskScore_status (g : jsval) (prior : option PreviousState.t) :
  AnalysisResult.status (analyse g prior)
  = determineStatus (AnalysisResult.riskScore (analyse g prior)).
Proof.
  unfold analyse.
  repeat match goal with
         | |- context [if ?b then _ else _] => destruct b
         end; reflexivity.
Qed.

End Scorer.

(** ** The handler on some requests *)

(** A face seen before and gone now: both rows for a missing face match. *)
Example face_suddenly_disappeared :
  analyse (B := reference_builtins)
    (observation_object {| faceCount := 0; cameraBlocked := false;
                           highMotion := false; environmentStable := true;
                           confidence := 88 |})
    (Some {| PreviousState.faceDetected := true;
             PreviousState.faceCount := VNum 1 |})
  = {| AnalysisResult.faceCount := VNum 0;
       AnalysisResult.faceDetected := false;
       AnalysisResult.faceLost := VBool true;
       AnalysisResult.cameraBlocked := VBool false;
       AnalysisResult.highMotion := VBool false;
       AnalysisResult.anomalyFlags :=
         ["No face detected"; "Face suddenly disappeared"];
       AnalysisResult.riskScore := 50;
       AnalysisResult.status := warning |}.
Proof. reflexivity. Qed.

(** Every row that can match together does: the sum 110 is capped. *)
Example score_is_capped :
  AnalysisResult.riskScore
    (analyse (B := reference_builtins)
       (observation_object {| faceCount := 0; cameraBlocked := true;
                              highMotion := true; environmentStable := false;
                              confidence := 10 |})
       (Some {| PreviousState.faceDetected := true;
                PreviousState.faceCount := VNum 1 |}))
  = 100.
Proof. reflexivity. Qed.

(** A reply wrapped in a code fence. *)
Example serve_fenced_reply :
  serve (B := reference_builtins) (post "data:image/jpeg;base64,AAAA" None)
    (Some "key")
    (Reply (json_text
      "```json {'faceCount': 1, 'cameraBlocked': false, 'highMotion': true, 'environmentStable': true, 'confidence': 93} ```"))
  = ResultResponse
      {| AnalysisResult.faceCount := VNum 1;
         AnalysisResult.faceDetected := true;
         AnalysisResult.faceLost := VUndefined;
         AnalysisResult.cameraBlocked := VBool false;
         AnalysisResult.highMotion := VBool true;
         AnalysisResult.anomalyFlags := ["Unusual motion detected"];
         AnalysisResult.riskScore := 20;
         AnalysisResult.status := normal |}.
Proof. reflexivity. Qed.

(** Two objects in one reply: the match runs from the first brace to the
    last, is not JSON, and the default is scored. *)
Example serve_two_objects :
  parseGeminiResponse (B := reference_builtins)
    (json_text "{'faceCount': 3} or maybe {'faceCount': 4}")
  = defaultSafeResponse.
Proof. reflexivity. Qed.

Example serve_without_frame :
  serve (B := reference_builtins)
    {| method := "POST";
       json := inr {| frameData := None; previousState := None |} |}
    (Some "key") (Reply "{}")
  = ErrorResponse 400 "No frame data provided" None.
Proof. reflexivity. Qed.

(** ** The risk scorer *)

Ltac split_ifs :=
  repeat match goal with
         | |- context [if ?b then _ else _] => destruct b eqn:?
         end.

(** C1: on every reply object of the requested shape and every previous
    state, the score of the handler is the sum of the weights of the
    matched rows of the table capped at 100, its flags are the texts of the
    matched rows in the order of the table, and [faceDetected] is
    [faceCount >= 1]; two faces in front of a blocked camera, with no
    motion and a stable environment, score 70 and are flagged. *)
Theorem risk_scorer_follows_table {B : Builtins} :
  (forall (o : Observation) (prior : option PreviousState.t),
      let r := analyse (observation_object o) prior in
      AnalysisResult.riskScore r = spec_riskScore o prior
      /\ AnalysisResult.anomalyFlags r = spec_flags o prior
      /\ AnalysisResult.faceDetected r = (1 <=? faceCount o))
  /\ (forall (c : Z) (prior : option PreviousState.t),
         let r := analyse
                    (observation_object
                       {| faceCount := 2; cameraBlocked := true;
                          highMotion := false; environmentStable := true;
                          confidence := c |}) prior in
         AnalysisResult.riskScore r = 70
         /\ AnalysisResult.status r = flagged
         /\ AnalysisResult.anomalyFlags r
            = ["Multiple faces detected: 2"; "Camera appears blocked"]).
Proof.
  split.
  - intros [n cb hm es c] prior.
    unfold analyse, spec_riskScore, spec_flags, matched, spec_table.
    rewrite !get_faceCount, !get_cameraBlocked, !get_highMotion,
      !get_environmentStable, js_gt_num, js_ge_num.
    cbn [faceCount cameraBlocked highMotion environmentStable confidence
         js_strict_eq truthy filter condition prior_faceDetected].
    destruct (1 <? n) eqn:Hgt; destruct (n =? 0) eqn:Hz;
      try (apply Z.ltb_lt in Hgt; apply Z.eqb_eq in Hz; lia);
      destruct prior as [[[] pc]|]; destruct cb, hm, es;
      cbn; repeat split; reflexivity.
  - intros c [[[] pc]|]; cbn; repeat split; reflexivity.
Qed.

(** C4: the status is [flagged] exactly above 50, [warning] exactly above
    25 and up to 50, [normal] exactly up to 25, for every score and so for
    the score and status of every result of the handler; 25 is [normal] and
    50 is [warning]. *)
Theorem status_tiers {B : Builtins} :
  (forall riskScore : Z,
      (50 < riskScore <-> determineStatus riskScore = flagged)
      /\ (25 < riskScore <= 50 <-> determineStatus riskScore = warning)
      /\ (riskScore <= 25 <-> determineStatus riskScore = normal))
  /\ (forall (g : jsval) (prior : option PreviousState.t),
         let r := analyse g prior in
         (50 < AnalysisResult.riskScore r <-> AnalysisResult.status r = flagged)
         /\ (25 < AnalysisResult.riskScore r <= 50
             <-> AnalysisResult.status r = warning)
         /\ (AnalysisResult.riskScore r <= 25
             <-> AnalysisResult.status r = normal))
  /\ determineStatus 25 = normal
  /\ determineStatus 50 = warning.
Proof.
  assert (tiers : forall riskScore : Z,
             (50 < riskScore <-> determineStatus riskScore = flagged)
             /\ (25 < riskScore <= 50 <-> determineStatus riskScore = warning)
             /\ (riskScore <= 25 <-> determineStatus riskScore = normal)).
  { intro s. unfold determineStatus.
    destruct (50 <? s) eqn:H50; [apply Z.ltb_lt in H50 | apply Z.ltb_ge in H50].
    - repeat split; intros; try lia; try discriminate; reflexivity.
    - destruct (25 <? s) eqn:H25;
        [apply Z.ltb_lt in H25 | apply Z.ltb_ge in H25];
        repeat split; intros; try lia; try discriminate; reflexivity. }
  split; [exact tiers|]. split.
  - intros g prior r. subst r. rewrite riskScore_status. apply tiers.
  - split; reflexivity.
Qed.

(** C9: two replies of the requested shape that agree on everything but
    [confidence] get the same result, field for field. *)
Theorem score_ignores_confidence {B : Builtins}
    (o1 o2 : Observation) (prior : option PreviousState.t) :
  faceCount o1 = faceCount o2 ->
  cameraBlocked o1 = cameraBlocked o2 ->
  highMotion o1 = highMotion o2 ->
  environmentStable o1 = environmentStable o2 ->
  analyse (observation_object o1) prior = analyse (observation_object o2) prior.
Proof.
  intros Hf Hc Hm He. apply analyse_reads.
  - rewrite !get_faceCount. now rewrite Hf.
  - rewrite !get_cameraBlocked. now rewrite Hc.
  - rewrite !get_highMotion. now rewrite Hm.
  - rewrite !get_environmentStable. now rewrite He.
Qed.

Lemma score_ignores_confidence_witness :
  let o1 := {| faceCount := 0; cameraBlocked := false; highMotion := true;
               environmentStable := true; confidence := 5 |} in
  let o2 := {| faceCount := 0; cameraBlocked := false; highMotion := true;
               environmentStable := true; confidence := 95 |} in
  let prior := Some {| PreviousState.faceDetected := true;
                       PreviousState.faceCount := VNum 1 |} in
  (faceCount o1 = faceCount o2
   /\ cameraBlocked o1 = cameraBlocked o2
   /\ highMotion o1 = highMotion o2
   /\ environmentStable o1 = environmentStable o2)
  /\ analyse (B := reference_builtins) (observation_object o1) prior
     = analyse (B := reference_builtins) (observation_object o2) prior.
Proof.
  intros o1 o2 prior. split.
  - repeat split; reflexivity.
  - apply (score_ignores_confidence (B := reference_builtins) o1 o2 prior);
      reflexivity.
Defined.

(** ** The reply parser *)

Lemma default_scores_zero {B : Builtins} (prior : option PreviousState.t) :
  let r := analyse defaultSafeResponse prior in
  AnalysisResult.riskScore r = 0
  /\ AnalysisResult.status r = normal
  /\ AnalysisResult.anomalyFlags r = []
  /\ AnalysisResult.faceDetected r = true.
Proof.
  destruct prior as [[[] pc]|]; cbn; repeat split; reflexivity.
Qed.

(** The match of the regular expression is a part of the reply that
    opens with a brace and closes with one. *)
Lemma from_first_open_suffix (s s' : string) :
  from_first_open s = Some s' ->
  exists pre rest, s = pre ++ s' /\ s' = String "{" rest.
Proof.
  induction s as [|c s IH]; cbn; [discriminate|].
  destruct (Ascii.eqb_spec c "{") as [->|_].
  - intros [= <-]. now exists EmptyString, s.
  - intro H. destruct (IH H) as (pre & rest & -> & E).
    now exists (String c pre), rest.
Qed.

Lemma upto_last_close_prefix (s m : string) :
  upto_last_close s = Some m ->
  exists body post, s = m ++ post /\ m = body ++ "}".
Proof.
  revert m. induction s as [|c s IH]; cbn; intro m; [discriminate|].
  destruct (upto_last_close s) as [m'|].
  - intros [= <-]. destruct (IH m' eq_refl) as (body & post & -> & ->).
    now exists (String c body), post.
  - destruct (Ascii.eqb_spec c "}") as [->|_]; [|discriminate].
    intros [= <-]. now exists EmptyString, s.
Qed.

Lemma jsonMatch_shape (textContent m : string) :
  jsonMatch textContent = Some m ->
  exists pre body post,
    textContent = pre ++ m ++ post /\ m = String "{" (body ++ "}").
Proof.
  unfold jsonMatch.
  destruct (from_first_open textContent) as [s|] eqn:F; [|discriminate].
  destruct (from_first_open_suffix _ _ F) as (pre & rest & -> & ->).
  intro U. destruct (upto_last_close_prefix _ _ U) as (body & post & E & ->).
  exists pre. destruct body as [|c body]; cbn in E.
  - discriminate E.
  - injection E as <- E. exists body, post. now rewrite E.
Qed.

(** So a reply no part of which is JSON text is replaced by the default
    object. *)
Lemma default_when_no_payload {B : Builtins} (textContent : string) :
  (forall pre m post, textContent = pre ++ m ++ post -> JSON_parse m = None) ->
  parseGeminiResponse textContent = defaultSafeResponse.
Proof.
  intro H. unfold parseGeminiResponse.
  destruct (jsonMatch textContent) as [m|] eqn:M; [|reflexivity].
  destruct (jsonMatch_shape _ _ M) as (pre & body & post & E & _).
  now rewrite (H pre m post E).
Qed.

(** A reply whose stretch from the first opening brace to the last closing
    brace parses is scored as parsed: its properties are not checked. *)
Lemma parsed_reply_used_as_is {B : Builtins} (textContent m : string) (v : jsval) :
  jsonMatch textContent = Some m ->
  JSON_parse m = Some v ->
  parseGeminiResponse textContent = v.
Proof.
  intros Hm Hp. unfold parseGeminiResponse. now rewrite Hm, Hp.
Qed.

(** C2, on the code: a reply that holds the text of one property only is
    well-formed JSON with four of the five properties missing; it is
    scored as it is, not replaced by the default, and with no previous
    state the result is 30 and [warning]. *)
Lemma missing_fields_not_substituted :
  let textContent := json_text "{'faceCount':0}" in
  let g := parseGeminiResponse (B := reference_builtins) textContent in
  g = VObj [("faceCount", VNum 0)]
  /\ g <> defaultSafeResponse
  /\ AnalysisResult.riskScore (analyse (B := reference_builtins) g None) = 30
  /\ AnalysisResult.status (analyse (B := reference_builtins) g None) = warning
  /\ AnalysisResult.anomalyFlags (analyse (B := reference_builtins) g None)
     = ["No face detected"; "Environment instability detected"].
Proof.
  cbv zeta. repeat split; try reflexivity. discriminate.
Qed.

(** C2, as the code has it: when the reply has no stretch from a first
    opening brace to a last closing brace, or [JSON.parse] throws on that
    stretch, the reply is replaced by the default object, and the result
    is then 0 and [normal] with no flag, whatever the previous state. When
    the stretch parses, what was parsed goes to the scoring as it is:
    nothing is substituted and no property is checked. *)
Theorem default_on_unparsable_reply {B : Builtins} (textContent : string) :
  ((forall m, jsonMatch textContent = Some m -> JSON_parse m = None) ->
   parseGeminiResponse textContent = defaultSafeResponse
   /\ forall prior : option PreviousState.t,
       let r := analyse (parseGeminiResponse textContent) prior in
       AnalysisResult.riskScore r = 0
       /\ AnalysisResult.status r = normal
       /\ AnalysisResult.anomalyFlags r = []
       /\ AnalysisResult.faceDetected r = true)
  /\ (forall (m : string) (parsed : jsval),
         jsonMatch textContent = Some m ->
         JSON_parse m = Some parsed ->
         parseGeminiResponse textContent = parsed).
Proof.
  split.
  - intro H.
    assert (E : parseGeminiResponse textContent = defaultSafeResponse).
    { unfold parseGeminiResponse.
      destruct (jsonMatch textContent) as [m|] eqn:Hm; [|reflexivity].
      now rewrite (H m eq_refl). }
    split; [exact E|]. intro prior. rewrite E. apply default_scores_zero.
  - intros m parsed Hm Hp. unfold parseGeminiResponse. now rewrite Hm, Hp.
Qed.

Lemma default_on_unparsable_reply_witness :
  let unparsable := "Here you go: {faceCount: 0, cameraBlocked: true}" in
  let partial := json_text "I see {'faceCount':3,'cameraBlocked':'no'} here" in
  let m := json_text "{'faceCount':3,'cameraBlocked':'no'}" in
  let parsed := VObj [("faceCount", VNum 3); ("cameraBlocked", VStr "no")] in
  ((forall m', jsonMatch unparsable = Some m'
               -> JSON_parse (Builtins := reference_builtins) m' = None)
   /\ parseGeminiResponse (B := reference_builtins) unparsable
      = defaultSafeResponse
   /\ forall prior : option PreviousState.t,
       let r := analyse (B := reference_builtins)
                  (parseGeminiResponse (B := reference_builtins) unparsable)
                  prior in
       AnalysisResult.riskScore r = 0
       /\ AnalysisResult.status r = normal
       /\ AnalysisResult.anomalyFlags r = []
       /\ AnalysisResult.faceDetected r = true)
  /\ (jsonMatch partial = Some m
      /\ JSON_parse (Builtins := reference_builtins) m = Some parsed
      /\ parseGeminiResponse (B := reference_builtins) partial = parsed
      /\ parsed <> defaultSafeResponse).
Proof.
  intros unparsable partial m parsed. split.
  - assert (H : forall m', jsonMatch unparsable = Some m'
                  -> JSON_parse (Builtins := reference_builtins) m' = None).
    { intros m' Hm. vm_compute in Hm. injection Hm as <-. reflexivity. }
    split; [exact H|].
    exact (proj1 (default_on_unparsable_reply (B := reference_builtins)
                    unparsable) H).
  - assert (Hm : jsonMatch partial = Some m) by reflexivity.
    assert (Hp : JSON_parse (Builtins := reference_builtins) m = Some parsed)
      by reflexivity.
    split; [exact Hm|]. split; [exact Hp|]. split; [|discriminate].
    exact (proj2 (default_on_unparsable_reply (B := reference_builtins)
                    partial) m parsed Hm Hp).
Defined.

(** ** The hook *)

Lemma analyzeFrame_call_refs (h : Hook) :
  aggregator (fst (analyzeFrame_call h)) = aggregator h
  /\ voteMetadata (fst (analyzeFrame_call h)) = voteMetadata h.
Proof. split; reflexivity. Qed.

Lemma failed_settle_refs (h : Hook) (o : InvokeOutcome) :
  snd (analyzeFrame_settle h o) = None ->
  aggregator (fst (analyzeFrame_settle h o)) = aggregator h
  /\ voteMetadata (fst (analyzeFrame_settle h o)) = voteMetadata h.
Proof.
  destruct o as [message|[data|] [message|]]; cbn; intro H;
    try discriminate; split; reflexivity.
Qed.

Lemma serve_transport_failure {B : Builtins}
    (req : Request) (apiKey : option string) (gemini : GeminiOutcome) :
  transport_failure gemini = true ->
  forall result, serve req apiKey gemini <> ResultResponse result.
Proof.
  intros H result. unfold serve.
  destruct (String.eqb (method req) "OPTIONS"); [discriminate|].
  destruct (json req) as [message|body]; [discriminate|].
  destruct (falsy_string (frameData body)); [discriminate|].
  destruct (falsy_string apiKey); [discriminate|].
  destruct gemini; try discriminate.
Qed.

(** C5: when the call of the model fails, the handler answers with an
    error and no result, built from no default reply; the cycle returns
    [null] and leaves the four refs and the vote metadata as they were
    before the cycle. The same holds for every settling of
    [analyzeFrame] through its error branch or its [catch] branch. *)
Theorem transport_failure_leaves_session {B : Builtins}
    (h : Hook) (frame : string) (apiKey : option string)
    (gemini : GeminiOutcome) :
  transport_failure gemini = true ->
  (forall req result, serve req apiKey gemini <> ResultResponse result)
  /\ snd (cycle h frame apiKey gemini) = None
  /\ aggregator (fst (cycle h frame apiKey gemini)) = aggregator h
  /\ voteMetadata (fst (cycle h frame apiKey gemini)) = voteMetadata h
  /\ (forall message,
         snd (analyzeFrame_settle h (Rejects message)) = None
         /\ aggregator (fst (analyzeFrame_settle h (Rejects message)))
            = aggregator h)
  /\ (forall data message,
         snd (analyzeFrame_settle h (Resolves data (Some message))) = None
         /\ aggregator
              (fst (analyzeFrame_settle h (Resolves data (Some message))))
            = aggregator h).
Proof.
  intro H.
  split; [intros req result; now apply serve_transport_failure|].
  assert (N : snd (cycle h frame apiKey gemini) = None).
  { unfold cycle, analyzeFrame_call.
    match goal with
    | |- context [serve ?req apiKey gemini] =>
        pose proof (serve_transport_failure req apiKey gemini H) as Hs;
        destruct (serve req apiKey gemini) as [|st e d|result]
    end; [reflexivity|reflexivity|].
    exfalso. now apply (Hs result). }
  split; [exact N|].
  unfold cycle, analyzeFrame_call in *.
  match type of N with
  | snd (analyzeFrame_settle ?h1 ?o) = None =>
      destruct (failed_settle_refs h1 o N) as [Ha Hv]
  end.
  split; [exact Ha|]. split; [exact Hv|].
  split.
  - intro message. split; reflexivity.
  - intros [data|] message; split; reflexivity.
Qed.

Lemma transport_failure_leaves_session_witness :
  let h := fst (cycle (B := reference_builtins) initialHook "data:image/jpeg;base64,AAAA"
                  (Some "key")
                  (Reply (json_text "{'faceCount':3,'cameraBlocked':true}"))) in
  let gemini := NotOk 503 "The model is overloaded" in
  transport_failure gemini = true
  /\ aggregator h
     = (80, ["Multiple faces detected: 3"; "Camera appears blocked";
             "Environment instability detected"], 1,
        Some {| PreviousState.faceDetected := true;
                PreviousState.faceCount := VNum 3 |})
  /\ snd (cycle (B := reference_builtins) h "data:image/jpeg;base64,BBBB"
            (Some "key") gemini) = None
  /\ aggregator (fst (cycle (B := reference_builtins) h
                        "data:image/jpeg;base64,BBBB" (Some "key") gemini))
     = aggregator h.
Proof.
  intros h gemini.
  split; [reflexivity|]. split; [reflexivity|].
  pose proof (transport_failure_leaves_session (B := reference_builtins)
                h "data:image/jpeg;base64,BBBB" (Some "key") gemini eq_refl)
    as (_ & N & A & _).
  split; [exact N | exact A].
Defined.

(** ** The flag history *)

Lemma Set_add_In (set : list string) (x f : string) :
  In f (Set_add set x) <-> In f set \/ f = x.
Proof.
  unfold Set_add, push.
  destruct (existsb (String.eqb x) set) eqn:E.
  - apply existsb_exists in E as (y & Hy & Hxy).
    apply String.eqb_eq in Hxy. subst y.
    split; [now left | intros [H| ->]; assumption].
  - rewrite in_app_iff. cbn. intuition (subst; auto).
Qed.

Lemma Set_add_NoDup (set : list string) (x : string) :
  NoDup set -> NoDup (Set_add set x).
Proof.
  intro H. unfold Set_add, push.
  destruct (existsb (String.eqb x) set) eqn:E; [exact H|].
  apply NoDup_rev in H. rewrite <- (rev_involutive (set ++ [x])).
  apply NoDup_rev. rewrite rev_app_distr. cbn.
  constructor; [|exact H].
  intro Hin. apply in_rev in Hin.
  assert (existsb (String.eqb x) set = true) as E'; [|congruence].
  apply existsb_exists. exists x. split; [exact Hin|apply String.eqb_refl].
Qed.

Lemma fold_Set_add (array set : list string) :
  NoDup set ->
  NoDup (fold_left Set_add array set)
  /\ forall f, In f (fold_left Set_add array set) <-> In f set \/ In f array.
Proof.
  revert set. induction array as [|x array IH]; intros set H; cbn.
  - split; [exact H | intro f; tauto].
  - destruct (IH (Set_add set x) (Set_add_NoDup set x H)) as [N M].
    split; [exact N|]. intro f. rewrite M, Set_add_In. intuition (subst; auto).
Qed.

(** C6, on the code: two cycles on a frame without a face leave the same
    flag twice in [flagHistoryRef], and twice in the [flagHistory] of the
    vote metadata the hook returns; only [flagDetails] has it once. *)
Lemma flagHistory_keeps_duplicates :
  let reply :=
    Reply (json_text
      "{'faceCount':0,'cameraBlocked':false,'highMotion':false,'environmentStable':true,'confidence':90}") in
  let h1 := fst (cycle (B := reference_builtins) initialHook "frame 1"
                   (Some "key") reply) in
  let h2 := fst (cycle (B := reference_builtins) h1 "frame 2"
                   (Some "key") reply) in
  flagHistoryRef h2 = ["No face detected"; "No face detected"]
  /\ VoteMetadata.flagHistory (voteMetadata h2)
     = ["No face detected"; "No face detected"]
  /\ ~ NoDup (flagHistoryRef h2)
  /\ VoteRiskData.flagDetails (getVoteRiskData h2) = ["No face detected"].
Proof.
  cbv zeta.
  split; [reflexivity|]. split; [reflexivity|]. split; [|reflexivity].
  intro N. vm_compute in N. inversion N as [|x l Hnin _]; subst.
  apply Hnin. now left.
Qed.

(** C6, as the code has it: every completed cycle appends its flags to
    [flagHistoryRef], which so holds every flag of the session as often as
    it was raised; the [flagDetails] of the snapshot has no string twice
    and holds exactly the strings of [flagHistoryRef]. *)
Theorem flagDetails_distinct (h : Hook) :
  NoDup (VoteRiskData.flagDetails (getVoteRiskData h))
  /\ (forall f, In f (VoteRiskData.flagDetails (getVoteRiskData h))
                <-> In f (flagHistoryRef h))
  /\ (forall data,
         flagHistoryRef (analyzeFrame_success h data)
         = (flagHistoryRef h ++ AnalysisResult.anomalyFlags data)%list).
Proof.
  destruct (fold_Set_add (flagHistoryRef h) [] (NoDup_nil _)) as [N M].
  split; [exact N|]. split.
  - intro f. cbn. unfold Set_from. rewrite M. cbn. tauto.
  - intro data. cbn.
    destruct (AnalysisResult.anomalyFlags data); cbn;
      [now rewrite app_nil_r | reflexivity].
Qed.

(** ** The running maximum *)

Lemma settle_max (h : Hook) (o : InvokeOutcome) :
  maxRiskScoreRef h <= maxRiskScoreRef (fst (analyzeFrame_settle h o)).
Proof.
  destruct o as [message|[data|] [message|]]; cbn; lia.
Qed.

Lemma step_max (c : Component) (e : Event) :
  is_stop e = false ->
  maxRiskScoreRef (hook c) <= maxRiskScoreRef (hook (step c e)).
Proof.
  destruct e as [granted| |ready|i o]; cbn; intro H; try discriminate.
  - unfold startCamera. destruct granted; cbn; lia.
  - unfold captureAndAnalyze_call.
    destruct (negb (isActive c)); [lia|]. destruct (negb ready); cbn; lia.
  - unfold captureAndAnalyze_settle.
    destruct (nth_error (inFlight c) i); [|lia].
    pose proof (settle_max (hook c) o) as M.
    destruct (analyzeFrame_settle (hook c) o) as [h' result]. exact M.
Qed.

(** C7: over any run of the component in which [stopCamera], the only
    caller of [reset], does not occur, [maxRiskScoreRef] does not decrease,
    each completed cycle setting it to the maximum of its value and the
    new score; so [isFlagged], once true, stays true. *)
Theorem maxRiskScore_monotone (c : Component) (trace : list Event) :
  forallb (fun e => negb (is_stop e)) trace = true ->
  maxRiskScoreRef (hook c) <= maxRiskScoreRef (hook (run c trace))
  /\ (VoteRiskData.isFlagged (getVoteRiskData (hook c)) = true ->
      VoteRiskData.isFlagged (getVoteRiskData (hook (run c trace))) = true)
  /\ (forall data,
         maxRiskScoreRef (analyzeFrame_success (hook c) data)
         = Z.max (maxRiskScoreRef (hook c)) (AnalysisResult.riskScore data)).
Proof.
  intro H.
  assert (M : maxRiskScoreRef (hook c) <= maxRiskScoreRef (hook (run c trace))).
  { revert c. unfold run. induction trace as [|e trace IH]; intro c; cbn.
    - lia.
    - cbn in H. apply andb_prop in H as [He Ht].
      apply negb_true_iff in He.
      specialize (IH Ht (step c e)). pose proof (step_max c e He). lia. }
  split; [exact M|]. split.
  - cbn. rewrite !Z.ltb_lt. lia.
  - reflexivity.
Qed.

Lemma maxRiskScore_monotone_witness :
  let crowded :=
    Resolves (Some (analyse (B := reference_builtins)
                      (observation_object
                         {| faceCount := 2; cameraBlocked := true;
                            highMotion := false; environmentStable := true;
                            confidence := 80 |}) None)) None in
  let clean :=
    Resolves (Some (analyse (B := reference_builtins)
                      (observation_object
                         {| faceCount := 1; cameraBlocked := false;
                            highMotion := false; environmentStable := true;
                            confidence := 80 |})
                      (Some {| PreviousState.faceDetected := true;
                               PreviousState.faceCount := VNum 2 |}))) None in
  let c := run initialComponent [StartCamera true; Tick true; Settle 0 crowded] in
  let trace := [Tick true; Settle 0 clean] in
  forallb (fun e => negb (is_stop e)) trace = true
  /\ maxRiskScoreRef (hook c) = 70
  /\ AnomalyState.riskScore (state (hook (run c trace))) = 0
  /\ maxRiskScoreRef (hook c) <= maxRiskScoreRef (hook (run c trace))
  /\ VoteRiskData.isFlagged (getVoteRiskData (hook (run c trace))) = true.
Proof.
  intros crowded clean c trace.
  split; [reflexivity|]. split; [reflexivity|]. split; [reflexivity|].
  destruct (maxRiskScore_monotone c trace eq_refl) as (M & F & _).
  split; [exact M | exact (F eq_refl)].
Defined.

(** ** Reset *)

(** C8: after [reset], and so after [stopCamera], the flag history is
    empty, the analysis count and the maximal score are 0 and there is no
    previous state: the hook is as it was created. *)
Theorem reset_restores_initial (h : Hook) (c : Component) :
  flagHistoryRef (reset h) = []
  /\ analysisCountRef (reset h) = 0
  /\ maxRiskScoreRef (reset h) = 0
  /\ previousStateRef (reset h) = None
  /\ reset h = initialHook
  /\ hook (step c StopCamera) = initialHook
  /\ getVoteRiskData (reset h)
     = {| VoteRiskData.riskScore := 0;
          VoteRiskData.anomalyFlags := false;
          VoteRiskData.flagDetails := [];
          VoteRiskData.analysisCount := 0;
          VoteRiskData.isFlagged := false |}.
Proof. repeat split; reflexivity. Qed.

(** ** What the hook shows of the environment *)

(** C10: after a successful cycle the [environmentStable] of the state is
    the conjunction of the negations of [cameraBlocked] and [highMotion]
    of the result; the [environmentStable] of the model's reply, which
    weighs 10 in the score, has no part in it. *)
Theorem exposed_environmentStable {B : Builtins} :
  (forall (h : Hook) (data : AnalysisResult.t),
      AnomalyState.environmentStable
        (state (fst (analyzeFrame_settle h (Resolves (Some data) None))))
      = negb (truthy (AnalysisResult.cameraBlocked data))
        && negb (truthy (AnalysisResult.highMotion data)))
  /\ (forall (h : Hook) (o : Observation) (prior : option PreviousState.t),
         AnomalyState.environmentStable
           (state (fst (analyzeFrame_settle h
                          (Resolves (Some (analyse (observation_object o) prior))
                             None))))
         = negb (cameraBlocked o) && negb (highMotion o))
  /\ (forall (h : Hook) (prior : option PreviousState.t),
         let data :=
           analyse (observation_object
                      {| faceCount := 1; cameraBlocked := false;
                         highMotion := false; environmentStable := false;
                         confidence := 70 |}) prior in
         AnalysisResult.riskScore data = 10
         /\ AnomalyState.environmentStable
              (state (fst (analyzeFrame_settle h (Resolves (Some data) None))))
            = true).
Proof.
  split; [reflexivity|]. split.
  - intros h o prior. cbn [analyzeFrame_settle fst analyzeFrame_success state
                           AnomalyState.environmentStable].
    unfold analyse.
    cbn [AnalysisResult.cameraBlocked AnalysisResult.highMotion].
    split_ifs; cbn [AnalysisResult.cameraBlocked AnalysisResult.highMotion];
      rewrite get_cameraBlocked, get_highMotion; reflexivity.
  - intros h [[[] pc]|]; split; reflexivity.
Qed.

(** ** The timer *)

Lemma step_inFlight (c : Component) (e : Event) :
  (List.length (inFlight (step c e))
   <= List.length (inFlight c) + (if is_tick e then 1 else 0))%nat.
Proof.
  destruct e as [granted| |ready|i o]; cbn.
  - unfold startCamera. destruct granted; cbn; lia.
  - lia.
  - unfold captureAndAnalyze_call.
    destruct (negb (isActive c)); [lia|]. destruct (negb ready); cbn; [lia|].
    unfold push. rewrite length_app. cbn. lia.
  - unfold captureAndAnalyze_settle.
    destruct (nth_error (inFlight c) i) eqn:E; [|lia].
    destruct (analyzeFrame_settle (hook c) o) as [h' result]. cbn.
    clear E. revert i. induction (inFlight c) as [|x l IH]; intro i.
    + destruct i; cbn; lia.
    + destruct i; cbn; [lia|]. specialize (IH i). lia.
Qed.

(** C3, on the code: with the camera on, two firings of the timer before
    the first call settles leave two calls of the edge function in
    flight. *)
Lemma two_calls_in_flight :
  let c := run initialComponent [StartCamera true; Tick true; Tick true] in
  inFlight c = [None; None]
  /\ ~ (List.length (inFlight c) <= 1)%nat.
Proof.
  cbv zeta. split; [reflexivity|]. cbn. lia.
Qed.

(** C3, as the code has it: a firing of the timer on an active camera with
    a ready video starts a call of the edge function whatever calls are in
    flight, none being skipped or queued; over a run, the calls in flight
    are at most those in flight at its start plus the firings. *)
Theorem every_ready_tick_calls (c : Component) (trace : list Event) :
  isActive c = true ->
  inFlight (step c (Tick true)) = push (inFlight c) (previousStateRef (hook c))
  /\ List.length (inFlight (step c (Tick true))) = S (List.length (inFlight c))
  /\ (List.length (inFlight (run c trace))
      <= List.length (inFlight c) + ticks trace)%nat.
Proof.
  intro A.
  assert (E : inFlight (step c (Tick true))
              = push (inFlight c) (previousStateRef (hook c))).
  { cbn. unfold captureAndAnalyze_call. rewrite A. reflexivity. }
  split; [exact E|]. split.
  - rewrite E. unfold push. rewrite length_app. cbn. lia.
  - clear A E. revert c. unfold run, ticks.
    induction trace as [|e trace IH]; intro c; cbn [fold_left filter].
    + cbn. lia.
    + specialize (IH (step c e)). pose proof (step_inFlight c e) as S1.
      destruct (is_tick e); cbn [List.length] in *; lia.
Qed.

Lemma every_ready_tick_calls_witness :
  let c := run initialComponent [StartCamera true; Tick true] in
  let trace := [Tick true; Tick false; Tick true] in
  isActive c = true
  /\ List.length (inFlight c) = 1%nat
  /\ List.length (inFlight (step c (Tick true))) = 2%nat
  /\ (List.length (inFlight (run c trace)) <= 1 + 3)%nat.
Proof.
  intros c trace.
  split; [reflexivity|]. split; [reflexivity|].
  destruct (every_ready_tick_calls c trace eq_refl) as (_ & L & R).
  split; [exact L | exact R].
Defined.

(** * Further properties of the code *)

(** ** The score of an arbitrary reply *)

Section AnyReply.
Context {B : Builtins}.

Lemma strict_eq_0_not_gt_1 (v : jsval) :
  js_strict_eq v 0 = true -> js_gt v 1 = false.
Proof.
  destruct v; cbn; try discriminate.
  intro H. apply Z.eqb_eq in H. subst n. reflexivity.
Qed.

(** Whatever [JSON.parse] returned, an object of any shape or no object
    at all, and whatever the previous state, the score is one of the
    multiples of ten from 0 to 100. *)
Theorem riskScore_bounds (g : jsval) (prior : option PreviousState.t) :
  0 <= AnalysisResult.riskScore (analyse g prior) <= 100
  /\ exists k, AnalysisResult.riskScore (analyse g prior) = 10 * k.
Proof.
  unfold analyse.
  destruct (js_gt (get g "faceCount") 1);
    destruct (js_strict_eq (get g "faceCount") 0);
    destruct (truthy (get g "cameraBlocked"));
    destruct (truthy (get g "highMotion"));
    destruct (truthy (get g "environmentStable"));
    destruct prior as [[[] pc]|]; cbn;
    (split; [lia|]);
    match goal with
    | |- exists k, ?n = _ => exists (n / 10); reflexivity
    end.
Qed.

(** The score is 0 exactly when no flag is raised. *)
Theorem riskScore_zero_iff_no_flag (g : jsval) (prior : option PreviousState.t) :
  AnalysisResult.riskScore (analyse g prior) = 0
  <-> AnalysisResult.anomalyFlags (analyse g prior) = [].
Proof.
  unfold analyse.
  destruct (js_gt (get g "faceCount") 1);
    destruct (js_strict_eq (get g "faceCount") 0);
    destruct (truthy (get g "cameraBlocked"));
    destruct (truthy (get g "highMotion"));
    destruct (truthy (get g "environmentStable"));
    destruct prior as [[[] pc]|]; cbn;
    split; intro H; try reflexivity; try discriminate H.
Qed.

End AnyReply.

Ltac distinct_strings :=
  repeat (constructor; [cbn; intuition discriminate|]); constructor.

(** No flag text is raised twice by one analysis, and at most five are
    raised: the rows for several faces and for no face exclude each
    other, for every reply. *)
Theorem flags_of_a_cycle_distinct {B : Builtins}
    (g : jsval) (prior : option PreviousState.t) :
  NoDup (AnalysisResult.anomalyFlags (analyse g prior))
  /\ (List.length (AnalysisResult.anomalyFlags (analyse g prior)) <= 5)%nat.
Proof.
  unfold analyse.
  destruct (js_strict_eq (get g "faceCount") 0) eqn:Z0.
  - rewrite (strict_eq_0_not_gt_1 _ Z0).
    destruct (truthy (get g "cameraBlocked"));
      destruct (truthy (get g "highMotion"));
      destruct (truthy (get g "environmentStable"));
      destruct prior as [[[] pc]|]; cbn;
      (split; [distinct_strings | lia]).
  - destruct (js_gt (get g "faceCount") 1);
      destruct (truthy (get g "cameraBlocked"));
      destruct (truthy (get g "highMotion"));
      destruct (truthy (get g "environmentStable"));
      destruct prior as [[[] pc]|]; cbn;
      (split; [distinct_strings | lia]).
Qed.

Lemma analyse_faceLost {B : Builtins}
    (g : jsval) (prior : option PreviousState.t) :
  AnalysisResult.faceLost (analyse g prior)
  = match prior with
    | None => VUndefined
    | Some p =>
        VBool (PreviousState.faceDetected p
               && js_strict_eq (get g "faceCount") 0)
    end.
Proof.
  unfold analyse. destruct prior as [[[] pc]|];
    cbn [PreviousState.faceDetected andb];
    destruct (js_gt (get g "faceCount") 1);
    destruct (js_strict_eq (get g "faceCount") 0);
    destruct (truthy (get g "cameraBlocked"));
    destruct (truthy (get g "highMotion"));
    destruct (truthy (get g "environmentStable")); reflexivity.
Qed.

Lemma faceLost_true_facts {B : Builtins}
    (g : jsval) (prior : option PreviousState.t) :
  AnalysisResult.faceLost (analyse g prior) = VBool true ->
  AnalysisResult.faceDetected (analyse g prior) = false
  /\ In "No face detected" (AnalysisResult.anomalyFlags (analyse g prior))
  /\ In "Face suddenly disappeared"
       (AnalysisResult.anomalyFlags (analyse g prior))
  /\ 50 <= AnalysisResult.riskScore (analyse g prior)
  /\ AnalysisResult.status (analyse g prior) <> normal.
Proof.
  rewrite analyse_faceLost.
  destruct prior as [[[] pc]|]; cbn [PreviousState.faceDetected andb];
    try discriminate.
  destruct (js_strict_eq (get g "faceCount") 0) eqn:Z0; [|discriminate].
  intros _. unfold analyse. rewrite Z0, (strict_eq_0_not_gt_1 _ Z0).
  assert (G : js_ge (get g "faceCount") 1 = false).
  { destruct (get g "faceCount"); cbn in Z0; try discriminate.
    apply Z.eqb_eq in Z0. subst n. reflexivity. }
  rewrite G.
  destruct (truthy (get g "cameraBlocked"));
    destruct (truthy (get g "highMotion"));
    destruct (truthy (get g "environmentStable")); cbn;
    repeat split; try lia; try discriminate; tauto.
Qed.

(** A request without previous state gives [faceLost] as [undefined], not
    as [false]. Whenever [faceLost] is [true], no face is detected, both
    flags for a missing face are raised and the score is at least 50, so
    the status is not [normal]. *)
Theorem faceLost_meaning {B : Builtins}
    (g : jsval) (prior : option PreviousState.t) :
  let r := analyse g prior in
  (prior = None -> AnalysisResult.faceLost r = VUndefined)
  /\ (AnalysisResult.faceLost r = VBool true ->
      AnalysisResult.faceDetected r = false
      /\ In "No face detected" (AnalysisResult.anomalyFlags r)
      /\ In "Face suddenly disappeared" (AnalysisResult.anomalyFlags r)
      /\ 50 <= AnalysisResult.riskScore r
      /\ AnalysisResult.status r <> normal).
Proof.
  cbv zeta. split.
  - intros ->. now rewrite analyse_faceLost.
  - apply faceLost_true_facts.
Qed.

Lemma faceLost_meaning_witness :
  let g := VObj [("faceCount", VNum 0)] in
  let prior := Some {| PreviousState.faceDetected := true;
                       PreviousState.faceCount := VNum 1 |} in
  let r := analyse (B := reference_builtins) g prior in
  AnalysisResult.faceLost r = VBool true
  /\ AnalysisResult.faceDetected r = false
  /\ 50 <= AnalysisResult.riskScore r.
Proof.
  intros g prior r.
  split; [reflexivity|].
  destruct (faceLost_meaning (B := reference_builtins) g prior) as [_ H].
  destruct (H eq_refl) as (D & _ & _ & S & _).
  split; [exact D | exact S].
Defined.

(** A previous state never lowers the score and never removes a flag; a
    previous state without a detected face changes neither. *)
Theorem previous_state_only_adds {B : Builtins}
    (g : jsval) (p : PreviousState.t) :
  AnalysisResult.riskScore (analyse g None)
  <= AnalysisResult.riskScore (analyse g (Some p))
  /\ incl (AnalysisResult.anomalyFlags (analyse g None))
          (AnalysisResult.anomalyFlags (analyse g (Some p)))
  /\ (PreviousState.faceDetected p = false ->
      AnalysisResult.riskScore (analyse g (Some p))
      = AnalysisResult.riskScore (analyse g None)
      /\ AnalysisResult.anomalyFlags (analyse g (Some p))
         = AnalysisResult.anomalyFlags (analyse g None)
      /\ AnalysisResult.status (analyse g (Some p))
         = AnalysisResult.status (analyse g None)).
Proof.
  unfold analyse. destruct p as [fd pc].
  destruct (js_gt (get g "faceCount") 1);
    destruct (js_strict_eq (get g "faceCount") 0);
    destruct (truthy (get g "cameraBlocked"));
    destruct (truthy (get g "highMotion"));
    destruct (truthy (get g "environmentStable"));
    destruct fd; cbn;
    (split; [lia|]);
    (split; [intros x Hx; cbn in Hx |- *; tauto|]);
    intro H; try discriminate H; repeat split; reflexivity.
Qed.

Lemma previous_state_only_adds_witness :
  let g := VObj [("faceCount", VNum 0); ("highMotion", VBool true)] in
  let p := {| PreviousState.faceDetected := false;
              PreviousState.faceCount := VNum 0 |} in
  PreviousState.faceDetected p = false
  /\ AnalysisResult.riskScore (analyse (B := reference_builtins) g (Some p))
     = AnalysisResult.riskScore (analyse (B := reference_builtins) g None).
Proof.
  intros g p. split; [reflexivity|].
  destruct (previous_state_only_adds (B := reference_builtins) g p)
    as (_ & _ & H).
  exact (proj1 (H eq_refl)).
Defined.

(** ** The answers of the handler *)

(** The handler answers with a result only on a request that is not a
    preflight, whose body is JSON with a frame, with an API key configured
    and a reply received from the model; the result is then the analysis
    of the parsed reply against the previous state of the request. *)
Theorem serve_result_only_if {B : Builtins}
    (req : Request) (apiKey : option string) (gemini : GeminiOutcome)
    (result : AnalysisResult.t) :
  serve req apiKey gemini = ResultResponse result ->
  String.eqb (method req) "OPTIONS" = false
  /\ falsy_string apiKey = false
  /\ exists body textContent,
      json req = inr body
      /\ falsy_string (frameData body) = false
      /\ gemini = Reply textContent
      /\ nullish (parseGeminiResponse textContent) = false
      /\ result = analyse (parseGeminiResponse textContent)
                    (previousState body).
Proof.
  unfold serve.
  destruct (String.eqb (method req) "OPTIONS"); [discriminate|].
  destruct (json req) as [message|body]; [discriminate|].
  destruct (falsy_string (frameData body)) eqn:F; [discriminate|].
  destruct (falsy_string apiKey) eqn:K; [discriminate|].
  destruct gemini as [m|st e|m|textContent]; try discriminate.
  destruct (nullish (parseGeminiResponse textContent)) eqn:N;
    [discriminate|].
  intros [= <-]. split; [reflexivity|]. split; [reflexivity|].
  exists body, textContent. repeat split; assumption.
Qed.

Lemma serve_result_only_if_witness :
  let prior := Some {| PreviousState.faceDetected := true;
                       PreviousState.faceCount := VNum 1 |} in
  let req := post "data:image/png;base64,iVBOR" prior in
  let textContent := json_text "{'faceCount':0,'environmentStable':true}" in
  let result := {| AnalysisResult.faceCount := VNum 0;
                   AnalysisResult.faceDetected := false;
                   AnalysisResult.faceLost := VBool true;
                   AnalysisResult.cameraBlocked := VUndefined;
                   AnalysisResult.highMotion := VUndefined;
                   AnalysisResult.anomalyFlags :=
                     ["No face detected"; "Face suddenly disappeared"];
                   AnalysisResult.riskScore := 50;
                   AnalysisResult.status := warning |} in
  serve (B := reference_builtins) req (Some "key") (Reply textContent)
  = ResultResponse result
  /\ falsy_string (Some "key") = false
  /\ exists body t,
      json req = inr body
      /\ falsy_string (frameData body) = false
      /\ Reply textContent = Reply t
      /\ nullish (parseGeminiResponse (B := reference_builtins) t) = false
      /\ result = analyse (B := reference_builtins)
                    (parseGeminiResponse (B := reference_builtins) t)
                    (previousState body).
Proof.
  intros prior req textContent result.
  assert (S : serve (B := reference_builtins) req (Some "key")
                (Reply textContent) = ResultResponse result) by reflexivity.
  split; [exact S|].
  exact (proj2 (serve_result_only_if (B := reference_builtins) req
                  (Some "key") (Reply textContent) result S)).
Defined.



(** The model is not consulted for a preflight, a body that is not JSON,
    a missing frame or a missing key: the answer is then the same whatever
    the call of the model would come to, and it is never a result. *)
Theorem serve_without_model {B : Builtins}
    (req : Request) (apiKey : option string) (g1 g2 : GeminiOutcome) :
  String.eqb (method req) "OPTIONS" = true
  \/ (exists message, json req = inl message)
  \/ (exists body, json req = inr body
                   /\ falsy_string (frameData body) = true)
  \/ falsy_string apiKey = true ->
  serve req apiKey g1 = serve req apiKey g2
  /\ forall result, serve req apiKey g1 <> ResultResponse result.
Proof.
  unfold serve.
  intros [M|[(message & J)|[(body & J & F)|K]]].
  - rewrite M. split; [reflexivity | discriminate].
  - rewrite J. destruct (String.eqb (method req) "OPTIONS");
      (split; [reflexivity | discriminate]).
  - rewrite J, F. destruct (String.eqb (method req) "OPTIONS");
      (split; [reflexivity | discriminate]).
  - rewrite K. destruct (String.eqb (method req) "OPTIONS");
      [split; [reflexivity | discriminate]|].
    destruct (json req) as [message|body];
      [split; [reflexivity | discriminate]|].
    destruct (falsy_string (frameData body));
      (split; [reflexivity | discriminate]).
Qed.

Lemma serve_without_model_witness :
  let req := post "data:image/jpeg;base64,AAAA" None in
  falsy_string (Some "") = true
  /\ serve (B := reference_builtins) req (Some "")
       (Reply (json_text "{'faceCount':4}"))
     = serve (B := reference_builtins) req (Some "") (NotOk 500 "down").
Proof.
  intro req. split; [reflexivity|].
  exact (proj1 (serve_without_model (B := reference_builtins) req (Some "")
                  (Reply (json_text "{'faceCount':4}")) (NotOk 500 "down")
                  (or_intror (or_intror (or_intror eq_refl))))).
Defined.

(** ** The match of the regular expression *)

Lemma from_first_open_skips (pre s : string) :
  occurs "{" pre = false ->
  from_first_open (pre ++ String "{" s) = Some (String "{" s).
Proof.
  induction pre as [|c pre IH]; [reflexivity|].
  intro H. cbn in H. apply orb_false_elim in H as [E H].
  cbn. rewrite E. exact (IH H).
Qed.

Lemma from_first_open_clean (s s' : string) :
  from_first_open s = Some s' ->
  exists pre, s = pre ++ s' /\ occurs "{" pre = false.
Proof.
  induction s as [|c s IH]; cbn; [discriminate|].
  destruct (Ascii.eqb_spec c "{") as [->|N].
  - intros [= <-]. now exists EmptyString.
  - intro H. destruct (IH H) as (pre & -> & O). exists (String c pre).
    split; [reflexivity|]. cbn. rewrite O.
    destruct (Ascii.eqb_spec c "{") as [E|_]; [contradiction|reflexivity].
Qed.

Lemma upto_last_close_none (s : string) :
  upto_last_close s = None <-> occurs "}" s = false.
Proof.
  induction s as [|c s IH]; cbn; [tauto|].
  destruct (upto_last_close s) as [m|].
  - split; [discriminate|]. intro H. apply orb_false_elim in H as [_ H].
    apply IH in H. discriminate H.
  - rewrite (proj1 IH eq_refl), orb_false_r.
    destruct (Ascii.eqb c "}"); split; (reflexivity || discriminate).
Qed.

Lemma upto_last_close_takes (body post : string) :
  occurs "}" post = false ->
  upto_last_close (body ++ String "}" post) = Some (body ++ "}").
Proof.
  intro H. apply upto_last_close_none in H.
  induction body as [|c body IH]; cbn.
  - now rewrite H.
  - now rewrite IH.
Qed.

Lemma upto_last_close_clean (s m : string) :
  upto_last_close s = Some m ->
  exists body post,
    s = m ++ post /\ m = body ++ "}" /\ occurs "}" post = false.
Proof.
  revert m. induction s as [|c s IH]; cbn; intro m; [discriminate|].
  destruct (upto_last_close s) as [m'|] eqn:U.
  - intros [= <-]. destruct (IH m' eq_refl) as (body & post & -> & -> & O).
    now exists (String c body), post.
  - destruct (Ascii.eqb_spec c "}") as [->|_]; [|discriminate].
    intros [= <-]. exists EmptyString, s.
    repeat split. now apply upto_last_close_none.
Qed.

Lemma append_assoc (a b c : string) : (a ++ b) ++ c = a ++ b ++ c.
Proof. induction a as [|x a IH]; cbn; [reflexivity | now rewrite IH]. Qed.

Lemma jsonMatch_of_cut (pre body post : string) :
  occurs "{" pre = false ->
  occurs "}" post = false ->
  jsonMatch (pre ++ String "{" (body ++ "}") ++ post)
  = Some (String "{" (body ++ "}")).
Proof.
  intros Opre Opost. unfold jsonMatch.
  cbn. rewrite from_first_open_skips by assumption.
  change (String "{" ((body ++ "}") ++ post))
    with ((String "{" (body ++ "}")) ++ post).
  change (String "{" (body ++ "}")) with ((String "{" body) ++ "}").
  rewrite append_assoc. cbn [append].
  change (String "{" (body ++ String "}" post))
    with ((String "{" body) ++ String "}" post).
  now rewrite upto_last_close_takes.
Qed.

(** The match is the stretch of the reply from its first opening brace to
    its last closing brace: what comes before has no opening brace, what
    comes after has no closing brace, and every such cutting of the reply
    gives the match. *)
Theorem jsonMatch_first_to_last (textContent m : string) :
  jsonMatch textContent = Some m
  <-> exists pre body post,
      textContent = pre ++ m ++ post
      /\ m = String "{" (body ++ "}")
      /\ occurs "{" pre = false
      /\ occurs "}" post = false.
Proof.
  unfold jsonMatch. split.
  - destruct (from_first_open textContent) as [s|] eqn:F; [|discriminate].
    destruct (from_first_open_suffix _ _ F) as (_ & rest & _ & ->).
    destruct (from_first_open_clean _ _ F) as (pre & -> & Opre).
    intro U.
    destruct (upto_last_close_clean _ _ U) as (body & post & E & -> & Opost).
    exists pre. destruct body as [|c body]; cbn in E; [discriminate E|].
    injection E as <- E. exists body, post. cbn. rewrite E.
    repeat split; assumption.
  - intros (pre & body & post & -> & -> & Opre & Opost).
    fold (jsonMatch (pre ++ String "{" (body ++ "}") ++ post)).
    now apply jsonMatch_of_cut.
Qed.

(** There is no match exactly when no closing brace follows an opening
    brace. *)
Theorem jsonMatch_none_iff (textContent : string) :
  jsonMatch textContent = None
  <-> forall a b c, textContent <> a ++ String "{" (b ++ String "}" c).
Proof.
  split.
  - intros N a b c ->.
    assert (exists s', from_first_open (a ++ String "{" (b ++ String "}" c))
                       = Some s' /\ occurs "}" s' = true) as (s' & F & O).
    { clear N. induction a as [|x a IH]; cbn.
      - eexists. split; [reflexivity|]. cbn.
        clear. induction b as [|y b IH]; cbn.
        + reflexivity.
        + rewrite IH. apply orb_true_r.
      - destruct (Ascii.eqb x "{") eqn:E; [|exact IH].
        destruct IH as (s' & F & O). eexists. split; [reflexivity|].
        cbn. apply orb_true_iff. right.
        clear - O F. revert s' F O.
        induction a as [|y a IH]; cbn; intros s' F O.
        + injection F as <-. exact O.
        + destruct (Ascii.eqb y "{").
          * injection F as <-. exact O.
          * apply orb_true_iff. right. exact (IH s' F O). }
    unfold jsonMatch in N. rewrite F in N.
    apply upto_last_close_none in N. congruence.
  - intro H. destruct (jsonMatch textContent) as [m|] eqn:M; [|reflexivity].
    apply jsonMatch_shape in M as (pre & body & post & E & ->).
    exfalso. apply (H pre body post). rewrite E. cbn.
    now rewrite append_assoc.
Qed.

Lemma jsonMatch_first_to_last_witness :
  let textContent := "Sure! {a{b}c} done" in
  jsonMatch textContent = Some "{a{b}c}"
  /\ exists pre body post,
      textContent = pre ++ "{a{b}c}" ++ post
      /\ "{a{b}c}" = String "{" (body ++ "}")
      /\ occurs "{" pre = false
      /\ occurs "}" post = false.
Proof.
  intro textContent. split; [reflexivity|].
  exact (proj1 (jsonMatch_first_to_last textContent "{a{b}c}") eq_refl).
Defined.

Lemma append_empty_r (s : string) : s ++ "" = s.
Proof. induction s as [|c s IH]; cbn; [reflexivity | now rewrite IH]. Qed.

(** Prose around the object does not change what is parsed, as long as
    the prose before has no opening brace and the prose after no closing
    brace: the handler answers as on the bare object. *)
Theorem surrounding_prose_ignored {B : Builtins}
    (pre body post : string) (req : Request) (apiKey : option string) :
  occurs "{" pre = false ->
  occurs "}" post = false ->
  let object := String "{" (body ++ "}") in
  parseGeminiResponse (pre ++ object ++ post) = parseGeminiResponse object
  /\ serve req apiKey (Reply (pre ++ object ++ post))
     = serve req apiKey (Reply object).
Proof.
  intros Opre Opost object.
  assert (M1 : jsonMatch (pre ++ object ++ post) = Some object)
    by now apply jsonMatch_of_cut.
  assert (M2 : jsonMatch object = Some object).
  { pose proof (jsonMatch_of_cut EmptyString body EmptyString eq_refl eq_refl)
      as M.
    cbn [append] in M. rewrite append_empty_r in M. exact M. }
  assert (E : parseGeminiResponse (pre ++ object ++ post)
              = parseGeminiResponse object).
  { unfold parseGeminiResponse. now rewrite M1, M2. }
  split; [exact E|]. unfold serve. now rewrite E.
Qed.

Lemma surrounding_prose_ignored_witness :
  let pre := "Here is the analysis: ```json " in
  let after := " ``` Let me know if you need more." in
  let body := json_text "'faceCount':2,'cameraBlocked':false" in
  occurs "{" pre = false
  /\ occurs "}" after = false
  /\ parseGeminiResponse (B := reference_builtins)
       (pre ++ String "{" (body ++ "}") ++ after)
     = VObj [("faceCount", VNum 2); ("cameraBlocked", VBool false)]
  /\ parseGeminiResponse (B := reference_builtins)
       (pre ++ String "{" (body ++ "}") ++ after)
     = parseGeminiResponse (B := reference_builtins)
         (String "{" (body ++ "}")).
Proof.
  intros pre after body.
  split; [reflexivity|]. split; [reflexivity|]. split; [reflexivity|].
  exact (proj1 (surrounding_prose_ignored (B := reference_builtins)
                  pre body after (post "frame" None) None
                  eq_refl eq_refl)).
Defined.

(** ** The image sent to the model *)

Lemma strip_prefix_append (p s : string) : strip_prefix p (p ++ s) = Some s.
Proof.
  induction p as [|c p IH]; cbn; [reflexivity|].
  now rewrite Ascii.eqb_refl.
Qed.

Lemma strip_prefix_suffix (p s rest : string) :
  strip_prefix p s = Some rest -> s = p ++ rest.
Proof.
  revert s. induction p as [|c p IH]; intros [|d s]; cbn;
    try discriminate; try (now intros [= <-]).
  destruct (Ascii.eqb_spec c d) as [->|_]; [|discriminate].
  intro H. now rewrite (IH s H).
Qed.

Lemma skip_word_run (w rest : string) :
  all_word w = true ->
  skip_word (w ++ String ";" rest) = String ";" rest.
Proof.
  induction w as [|c w IH]; cbn; [reflexivity|].
  intro H. apply andb_prop in H as [C W]. rewrite C. exact (IH W).
Qed.

Lemma skip_word_suffix (s : string) : exists w, s = w ++ skip_word s.
Proof.
  induction s as [|c s IH]; cbn.
  - now exists EmptyString.
  - destruct (is_word c).
    + destruct IH as (w & E). exists (String c w). cbn. now rewrite <- E.
    + now exists EmptyString.
Qed.

(** A data URL of an image, whatever its subtype, is sent to the model
    without its header: exactly the payload is left. Whatever the frame,
    what is sent is the frame or an end of it. *)
Theorem inline_data_strips_header (subtype payload frameData : string) :
  subtype <> EmptyString ->
  all_word subtype = true ->
  inline_data ("data:image/" ++ subtype ++ ";base64," ++ payload) = payload
  /\ exists header, frameData = header ++ inline_data frameData.
Proof.
  intros N W. split.
  - unfold inline_data. rewrite strip_prefix_append.
    destruct subtype as [|c w]; [contradiction|].
    cbn in W. apply andb_prop in W as [C W].
    cbn [append]. rewrite C.
    assert (A : all_word (String c w) = true) by (cbn; now rewrite C, W).
    pose proof (skip_word_run (String c w) ("base64," ++ payload) A) as E.
    cbn [append] in E. rewrite E.
    pose proof (strip_prefix_append ";base64," payload) as P.
    cbn [append] in P. now rewrite P.
  - unfold inline_data.
    destruct (strip_prefix "data:image/" frameData) as [rest|] eqn:P;
      [|now exists EmptyString].
    destruct rest as [|c rest]; [now exists EmptyString|].
    destruct (is_word c); [|now exists EmptyString].
    destruct (strip_prefix ";base64," (skip_word (String c rest)))
      as [data|] eqn:Q; [|now exists EmptyString].
    apply strip_prefix_suffix in P. apply strip_prefix_suffix in Q.
    destruct (skip_word_suffix (String c rest)) as (w & E).
    exists ("data:image/" ++ w ++ ";base64,").
    rewrite P, E, Q. now rewrite !append_assoc.
Qed.

Lemma inline_data_strips_header_witness :
  "jpeg" <> EmptyString
  /\ all_word "jpeg" = true
  /\ inline_data "data:image/jpeg;base64,/9j/4AAQSkZJRg==" = "/9j/4AAQSkZJRg=="
  /\ inline_data "data:image/svg+xml;base64,PHN2Zz4="
     = "data:image/svg+xml;base64,PHN2Zz4=".
Proof.
  split; [discriminate|]. split; [reflexivity|]. split; [|reflexivity].
  exact (proj1 (inline_data_strips_header "jpeg" "/9j/4AAQSkZJRg==" ""
                  ltac:(discriminate) eq_refl)).
Defined.

(** ** Runs of the component *)

Lemma run_app (c : Component) (t1 t2 : list Event) :
  run c (t1 ++ t2) = run (run c t1) t2.
Proof. unfold run. apply fold_left_app. Qed.

Lemma run_invariant (P : Component -> Prop) (c : Component)
    (trace : list Event) :
  P c ->
  (forall c' e, In e trace -> P c' -> P (step c' e)) ->
  P (run c trace).
Proof.
  revert c. unfold run.
  induction trace as [|e trace IH]; intros c Pc Pstep; cbn; [exact Pc|].
  apply IH.
  - apply Pstep; [now left | exact Pc].
  - intros c' e' Hin. apply Pstep. now right.
Qed.

Lemma settle_hook_cases (h : Hook) (o : InvokeOutcome) :
  (snd (analyzeFrame_settle h o) = None
   /\ exists st, fst (analyzeFrame_settle h o) = with_state h st)
  \/ (exists data,
         o = Resolves (Some data) None
         /\ analyzeFrame_settle h o = (analyzeFrame_success h data, Some data)).
Proof.
  destruct o as [message|[data|] [message|]]; cbn;
    try (left; split; [reflexivity | eexists; reflexivity]).
  right. now exists data.
Qed.

(** The vote metadata the hook returns never disagrees with the refs the
    snapshot is read from: in every state the component can reach, its
    flag history, analysis count and maximal score are those of the refs,
    so the snapshot reports the same count and the same maximal score. *)
Theorem voteMetadata_mirrors_refs (trace : list Event) :
  let h := hook (run initialComponent trace) in
  VoteMetadata.flagHistory (voteMetadata h) = flagHistoryRef h
  /\ VoteMetadata.analysisCount (voteMetadata h) = analysisCountRef h
  /\ VoteMetadata.maxRiskScore (voteMetadata h) = maxRiskScoreRef h
  /\ VoteRiskData.riskScore (getVoteRiskData h)
     = VoteMetadata.maxRiskScore (voteMetadata h)
  /\ VoteRiskData.analysisCount (getVoteRiskData h)
     = VoteMetadata.analysisCount (voteMetadata h).
Proof.
  cbv zeta.
  apply (run_invariant
           (fun c =>
              VoteMetadata.flagHistory (voteMetadata (hook c))
              = flagHistoryRef (hook c)
              /\ VoteMetadata.analysisCount (voteMetadata (hook c))
                 = analysisCountRef (hook c)
              /\ VoteMetadata.maxRiskScore (voteMetadata (hook c))
                 = maxRiskScoreRef (hook c)
              /\ VoteRiskData.riskScore (getVoteRiskData (hook c))
                 = VoteMetadata.maxRiskScore (voteMetadata (hook c))
              /\ VoteRiskData.analysisCount (getVoteRiskData (hook c))
                 = VoteMetadata.analysisCount (voteMetadata (hook c)))).
  - repeat split; reflexivity.
  - intros c e _ (F & A & M & _ & _).
    assert (G : forall h,
               VoteMetadata.flagHistory (voteMetadata h) = flagHistoryRef h ->
               VoteMetadata.analysisCount (voteMetadata h)
               = analysisCountRef h ->
               VoteMetadata.maxRiskScore (voteMetadata h)
               = maxRiskScoreRef h ->
               VoteMetadata.flagHistory (voteMetadata h) = flagHistoryRef h
               /\ VoteMetadata.analysisCount (voteMetadata h)
                  = analysisCountRef h
               /\ VoteMetadata.maxRiskScore (voteMetadata h)
                  = maxRiskScoreRef h
               /\ VoteRiskData.riskScore (getVoteRiskData h)
                  = VoteMetadata.maxRiskScore (voteMetadata h)
               /\ VoteRiskData.analysisCount (getVoteRiskData h)
                  = VoteMetadata.analysisCount (voteMetadata h)).
    { intros h F' A' M'. cbn. now rewrite F', A', M'. }
    destruct e as [granted| |ready|i o]; cbn.
    + unfold startCamera. destruct granted; cbn; now apply G.
    + repeat split; reflexivity.
    + unfold captureAndAnalyze_call.
      destruct (negb (isActive c)); [now apply G|].
      destruct (negb ready); cbn; now apply G.
    + unfold captureAndAnalyze_settle.
      destruct (nth_error (inFlight c) i); [|now apply G].
      destruct (settle_hook_cases (hook c) o) as [(N & st & E)|(data & -> & E)].
      * destruct (analyzeFrame_settle (hook c) o) as [h' r]. cbn in E.
        subst h'. cbn. now apply G.
      * rewrite E. cbn. repeat split; reflexivity.
Qed.

Lemma fold_Set_add_extends (array set : list string) :
  exists more, fold_left Set_add array set = (set ++ more)%list.
Proof.
  revert set. induction array as [|x array IH]; intro set; cbn.
  - exists []. now rewrite app_nil_r.
  - destruct (IH (Set_add set x)) as (more & E). rewrite E.
    unfold Set_add, push. destruct (existsb (String.eqb x) set).
    + now exists more.
    + exists (x :: more). now rewrite <- app_assoc.
Qed.

Lemma step_flagHistory (c : Component) (e : Event) :
  is_stop e = false ->
  exists more,
    flagHistoryRef (hook (step c e)) = (flagHistoryRef (hook c) ++ more)%list.
Proof.
  assert (R : forall l : list string, exists more, l = (l ++ more)%list)
    by (intro l; exists []; now rewrite app_nil_r).
  destruct e as [granted| |ready|i o]; cbn; intro H; try discriminate.
  - unfold startCamera. destruct granted; cbn; apply R.
  - unfold captureAndAnalyze_call.
    destruct (negb (isActive c)); [apply R|]. destruct (negb ready); apply R.
  - unfold captureAndAnalyze_settle.
    destruct (nth_error (inFlight c) i); [|apply R].
    destruct (settle_hook_cases (hook c) o) as [(N & st & E)|(data & -> & E)].
    + destruct (analyzeFrame_settle (hook c) o) as [h' r]. cbn in E.
      subst h'. apply R.
    + rewrite E. cbn.
      destruct (AnalysisResult.anomalyFlags data) as [|f fs]; cbn;
        [apply R | now exists (f :: fs)].
Qed.

(** Until the camera is stopped the flags only pile up: the flag history
    after a run starts with the flag history before it, the distinct flags
    of the snapshot after the run start with those before it, and a
    snapshot that reported anomalies keeps reporting them. *)
Theorem flagHistory_only_grows (c : Component) (trace : list Event) :
  forallb (fun e => negb (is_stop e)) trace = true ->
  (exists more,
      flagHistoryRef (hook (run c trace))
      = (flagHistoryRef (hook c) ++ more)%list)
  /\ (exists more,
         VoteRiskData.flagDetails (getVoteRiskData (hook (run c trace)))
         = (VoteRiskData.flagDetails (getVoteRiskData (hook c)) ++ more)%list)
  /\ (VoteRiskData.anomalyFlags (getVoteRiskData (hook c)) = true ->
      VoteRiskData.anomalyFlags (getVoteRiskData (hook (run c trace))) = true).
Proof.
  intro H.
  assert (G : exists more,
             flagHistoryRef (hook (run c trace))
             = (flagHistoryRef (hook c) ++ more)%list).
  { revert c. unfold run. induction trace as [|e trace IH]; intro c; cbn.
    - exists []. now rewrite app_nil_r.
    - cbn in H. apply andb_prop in H as [He Ht]. apply negb_true_iff in He.
      destruct (IH Ht (step c e)) as (m2 & E2).
      destruct (step_flagHistory c e He) as (m1 & E1).
      exists (m1 ++ m2)%list. now rewrite E2, E1, app_assoc. }
  destruct G as (more & E). split; [now exists more|]. split.
  - cbn. unfold Set_from. rewrite E, fold_left_app.
    apply fold_Set_add_extends.
  - cbn. rewrite E. destruct (flagHistoryRef (hook c)); [discriminate|].
    reflexivity.
Qed.

Lemma flagHistory_only_grows_witness :
  let seen (flags : list string) (score : Z) :=
    Resolves (Some {| AnalysisResult.faceCount := VNum 1;
                      AnalysisResult.faceDetected := true;
                      AnalysisResult.faceLost := VBool false;
                      AnalysisResult.cameraBlocked := VBool false;
                      AnalysisResult.highMotion := VBool true;
                      AnalysisResult.anomalyFlags := flags;
                      AnalysisResult.riskScore := score;
                      AnalysisResult.status := normal |}) None in
  let c := run initialComponent
             [StartCamera true; Tick true;
              Settle 0 (seen ["Unusual motion detected"] 20)] in
  let trace := [Tick true; Settle 0 (seen [] 0); Tick true;
                Settle 0 (seen ["Unusual motion detected"] 20)] in
  forallb (fun e => negb (is_stop e)) trace = true
  /\ flagHistoryRef (hook (run c trace))
     = ["Unusual motion detected"; "Unusual motion detected"]
  /\ VoteRiskData.anomalyFlags (getVoteRiskData (hook (run c trace))) = true.
Proof.
  intros seen c trace. split; [reflexivity|]. split; [reflexivity|].
  destruct (flagHistory_only_grows c trace eq_refl) as (_ & _ & A).
  exact (A eq_refl).
Defined.

(** ** Calls, analyses and firings of the timer *)

Lemma remove_nth_length {A : Type} (i : nat) (l : list A) (x : A) :
  nth_error l i = Some x ->
  S (List.length (remove_nth i l)) = List.length l.
Proof.
  revert i. induction l as [|y l IH]; intros [|i]; cbn; try discriminate.
  - reflexivity.
  - intro H. now rewrite (IH i H).
Qed.

Lemma step_counts (c : Component) (e : Event) (n : Z) :
  0 <= analysisCountRef (hook c) ->
  analysisCountRef (hook c) + Z.of_nat (List.length (inFlight c)) <= n ->
  Z.of_nat (List.length (riskUpdates c))
  + Z.of_nat (List.length (inFlight c)) <= n ->
  let n' := n + (if is_tick e then 1 else 0) in
  0 <= analysisCountRef (hook (step c e))
  /\ analysisCountRef (hook (step c e))
     + Z.of_nat (List.length (inFlight (step c e))) <= n'
  /\ Z.of_nat (List.length (riskUpdates (step c e)))
     + Z.of_nat (List.length (inFlight (step c e))) <= n'.
Proof.
  intros P A U. cbv zeta.
  destruct e as [granted| |ready|i o]; cbn.
  - unfold startCamera. destruct granted; cbn; lia.
  - lia.
  - unfold captureAndAnalyze_call.
    destruct (negb (isActive c)); [lia|]. destruct (negb ready); cbn; [lia|].
    unfold push. rewrite length_app. cbn. lia.
  - unfold captureAndAnalyze_settle.
    destruct (nth_error (inFlight c) i) as [sent|] eqn:E; [|lia].
    pose proof (remove_nth_length _ _ _ E) as L.
    destruct (settle_hook_cases (hook c) o) as [(N & st & S)|(data & -> & S)].
    + destruct (analyzeFrame_settle (hook c) o) as [h' r]. cbn in S, N.
      subst h' r. cbn. lia.
    + rewrite S. cbn. unfold push. rewrite length_app. cbn. lia.
Qed.

(** From the mounting of the component on, every counted analysis and
    every call of [onRiskUpdate] goes back to a firing of the timer: the
    analysis count plus the calls in flight, and the number of risk
    updates plus the calls in flight, never exceed the number of firings,
    and the count is never negative. *)
Theorem analyses_bounded_by_ticks (trace : list Event) :
  let c := run initialComponent trace in
  0 <= analysisCountRef (hook c)
  /\ analysisCountRef (hook c) + Z.of_nat (List.length (inFlight c))
     <= Z.of_nat (ticks trace)
  /\ Z.of_nat (List.length (riskUpdates c))
     + Z.of_nat (List.length (inFlight c))
     <= Z.of_nat (ticks trace).
Proof.
  cbv zeta.
  assert (G : forall (c : Component) (n : Z),
             0 <= analysisCountRef (hook c) ->
             analysisCountRef (hook c) + Z.of_nat (List.length (inFlight c))
             <= n ->
             Z.of_nat (List.length (riskUpdates c))
             + Z.of_nat (List.length (inFlight c)) <= n ->
             0 <= analysisCountRef (hook (run c trace))
             /\ analysisCountRef (hook (run c trace))
                + Z.of_nat (List.length (inFlight (run c trace)))
                <= n + Z.of_nat (ticks trace)
             /\ Z.of_nat (List.length (riskUpdates (run c trace)))
                + Z.of_nat (List.length (inFlight (run c trace)))
                <= n + Z.of_nat (ticks trace)).
  { unfold run, ticks. induction trace as [|e trace IH]; intros c n P A U.
    - cbn. lia.
    - destruct (step_counts c e n P A U) as (P' & A' & U').
      destruct (IH (step c e) _ P' A' U') as (P2 & A2 & U2).
      cbn [fold_left filter].
      destruct (is_tick e); cbn [List.length] in *;
        repeat split; try assumption; lia. }
  apply (G initialComponent 0); cbn; lia.
Qed.

(** Without a granted camera nothing is analysed: over a run in which
    [startCamera] never succeeds, whatever else happens, no call is made,
    the hook stays as created and [onRiskUpdate] is not called. *)
Theorem no_camera_no_analysis (trace : list Event) :
  forallb (fun e => negb (is_granted e)) trace = true ->
  let c := run initialComponent trace in
  isActive c = false
  /\ inFlight c = []
  /\ hook c = initialHook
  /\ riskUpdates c = [].
Proof.
  intro H. cbv zeta.
  apply (run_invariant
           (fun c => isActive c = false /\ inFlight c = []
                     /\ hook c = initialHook /\ riskUpdates c = [])).
  - repeat split; reflexivity.
  - intros c e Hin (A & F & K & U).
    assert (G : is_granted e = false).
    { rewrite forallb_forall in H. apply negb_true_iff. now apply H. }
    destruct e as [[]| |ready|i o]; cbn; try discriminate G.
    + unfold startCamera. now repeat split.
    + rewrite K. now repeat split.
    + unfold captureAndAnalyze_call. rewrite A. now repeat split.
    + unfold captureAndAnalyze_settle. rewrite F.
      destruct i; cbn; now repeat split.
Qed.

Lemma no_camera_no_analysis_witness :
  let data := {| AnalysisResult.faceCount := VNum 3;
                 AnalysisResult.faceDetected := true;
                 AnalysisResult.faceLost := VUndefined;
                 AnalysisResult.cameraBlocked := VBool false;
                 AnalysisResult.highMotion := VBool false;
                 AnalysisResult.anomalyFlags := ["Multiple faces detected: 3"];
                 AnalysisResult.riskScore := 40;
                 AnalysisResult.status := warning |} in
  let trace := [StartCamera false; Tick true; Tick true;
                Settle 0 (Resolves (Some data) None); StopCamera; Tick true] in
  forallb (fun e => negb (is_granted e)) trace = true
  /\ hook (run initialComponent trace) = initialHook
  /\ inFlight (run initialComponent trace) = [].
Proof.
  intros data trace. split; [reflexivity|].
  destruct (no_camera_no_analysis trace eq_refl) as (_ & F & K & _).
  split; [exact K | exact F].
Defined.

(** When the camera is stopped with a call in flight, the call is not
    cancelled: when it settles, its result is written into the hook that
    was just reset, which then counts one analysis with the score, the
    flags and the previous state of that result, while the camera is off;
    [onRiskUpdate] is called with that snapshot. *)
Theorem stopped_camera_still_settles
    (c : Component) (i : nat) (sent : option PreviousState.t)
    (data : AnalysisResult.t) :
  nth_error (inFlight c) i = Some sent ->
  let c' := run c [StopCamera; Settle i (Resolves (Some data) None)] in
  inFlight (step c StopCamera) = inFlight c
  /\ isActive c' = false
  /\ analysisCountRef (hook c') = 1
  /\ maxRiskScoreRef (hook c') = Z.max 0 (AnalysisResult.riskScore data)
  /\ flagHistoryRef (hook c') = AnalysisResult.anomalyFlags data
  /\ previousStateRef (hook c')
     = Some {| PreviousState.faceDetected := AnalysisResult.faceDetected data;
               PreviousState.faceCount := AnalysisResult.faceCount data |}
  /\ riskUpdates c' = push (riskUpdates c) (getVoteRiskData (hook c')).
Proof.
  intro H. cbv zeta. split; [reflexivity|].
  unfold run. cbn [fold_left step]. unfold captureAndAnalyze_settle.
  cbn [stopCamera inFlight]. rewrite H. cbn.
  repeat split.
  destruct (AnalysisResult.anomalyFlags data); reflexivity.
Qed.

Lemma stopped_camera_still_settles_witness :
  let data := {| AnalysisResult.faceCount := VNum 2;
                 AnalysisResult.faceDetected := true;
                 AnalysisResult.faceLost := VUndefined;
                 AnalysisResult.cameraBlocked := VBool true;
                 AnalysisResult.highMotion := VBool false;
                 AnalysisResult.anomalyFlags :=
                   ["Multiple faces detected: 2"; "Camera appears blocked"];
                 AnalysisResult.riskScore := 70;
                 AnalysisResult.status := flagged |} in
  let c := run initialComponent [StartCamera true; Tick true] in
  let c' := run c [StopCamera; Settle 0 (Resolves (Some data) None)] in
  nth_error (inFlight c) 0 = Some None
  /\ isActive c' = false
  /\ maxRiskScoreRef (hook c') = 70
  /\ VoteRiskData.isFlagged (getVoteRiskData (hook c')) = true.
Proof.
  intros data c c'. split; [reflexivity|].
  destruct (stopped_camera_still_settles c 0 None data eq_refl)
    as (_ & A & _ & M & _).
  split; [exact A|]. split; [exact M | reflexivity].
Defined.

(** ** The hook fed by the handler *)

Lemma strict_eq_1_ge_1 {B : Builtins} (v : jsval) :
  js_strict_eq v 1 = true -> js_ge v 1 = true.
Proof.
  destruct v; cbn; try discriminate.
  intro H. apply Z.eqb_eq in H. subst n. reflexivity.
Qed.

Lemma analyse_coherent {B : Builtins}
    (g : jsval) (prior : option PreviousState.t) :
  result_coherent (analyse g prior).
Proof.
  unfold result_coherent, analyse.
  pose proof (strict_eq_1_ge_1 (get g "faceCount")) as S1.
  destruct (js_gt (get g "faceCount") 1);
    destruct (js_strict_eq (get g "faceCount") 0);
    destruct (truthy (get g "cameraBlocked")) eqn:CB;
    destruct (truthy (get g "highMotion")) eqn:HM;
    destruct (truthy (get g "environmentStable"));
    destruct prior as [[[] pc]|];
    cbn [truthy negb AnalysisResult.riskScore AnalysisResult.anomalyFlags
         AnalysisResult.faceCount AnalysisResult.faceDetected
         AnalysisResult.cameraBlocked AnalysisResult.highMotion
         AnalysisResult.status push app PreviousState.faceDetected];
    rewrite ?CB, ?HM;
    (split; [cbn; lia|]);
    (split; [cbn; split; intro H; (reflexivity || discriminate H)|]);
    (split; [exact S1|]);
    reflexivity.
Qed.

Lemma initialHook_coherent : hook_coherent initialHook.
Proof.
  unfold hook_coherent. cbn.
  repeat split; intros; try lia; try discriminate; tauto.
Qed.

Lemma with_state_coherent (h : Hook) (st : AnomalyState.t) :
  hook_coherent h ->
  AnomalyState.riskScore st = AnomalyState.riskScore (state h) ->
  AnomalyState.anomalyFlags st = AnomalyState.anomalyFlags (state h) ->
  AnomalyState.faceCount st = AnomalyState.faceCount (state h) ->
  AnomalyState.faceDetected st = AnomalyState.faceDetected (state h) ->
  AnomalyState.status st <> flagged ->
  AnomalyState.status st <> normal ->
  hook_coherent (with_state h st).
Proof.
  unfold hook_coherent. cbn.
  intros (R & M & F & Z0 & S1 & _ & _) -> -> -> -> NF NN.
  repeat split; try tauto; try lia; intro H; contradiction.
Qed.

Lemma settle_failure_coherent (h : Hook) (o : InvokeOutcome) :
  hook_coherent h ->
  snd (analyzeFrame_settle h o) = None ->
  hook_coherent (fst (analyzeFrame_settle h o)).
Proof.
  intros C N.
  destruct o as [message|[data|] [message|]]; cbn in N |- *;
    try discriminate N;
    apply with_state_coherent; try assumption; try reflexivity;
    discriminate.
Qed.

Lemma success_coherent (h : Hook) (data : AnalysisResult.t) :
  hook_coherent h ->
  result_coherent data ->
  hook_coherent (analyzeFrame_success h data).
Proof.
  unfold hook_coherent, result_coherent. cbn.
  intros (R & M & F & _ & _ & _ & _) (D & Z0 & S1 & ST).
  split; [lia|]. split; [lia|]. split.
  - intro P. destruct (AnalysisResult.anomalyFlags data) as [|f fs] eqn:E.
    + cbn. apply F. assert (AnalysisResult.riskScore data = 0) by tauto. lia.
    + cbn. intro A. apply app_eq_nil in A as [_ A]. discriminate A.
  - split; [exact Z0|]. split; [exact S1|].
    + rewrite ST. unfold determineStatus.
      destruct (50 <? AnalysisResult.riskScore data) eqn:H50;
        [apply Z.ltb_lt in H50 | apply Z.ltb_ge in H50].
      * split; [intros _; lia | discriminate].
      * destruct (25 <? AnalysisResult.riskScore data) eqn:H25;
          [apply Z.ltb_lt in H25 | apply Z.ltb_ge in H25];
          split; try discriminate; intros _; lia.
Qed.

Lemma served_coherent {B : Builtins}
    (req : Request) (apiKey : option string) (gemini : GeminiOutcome)
    (data : AnalysisResult.t) :
  invoke_outcome (serve req apiKey gemini) = Resolves (Some data) None ->
  result_coherent data.
Proof.
  unfold serve.
  destruct (String.eqb (method req) "OPTIONS"); [discriminate|].
  destruct (json req) as [message|body]; [discriminate|].
  destruct (falsy_string (frameData body)); [discriminate|].
  destruct (falsy_string apiKey); [discriminate|].
  destruct gemini as [m|st e|m|textContent]; try discriminate.
  destruct (nullish (parseGeminiResponse textContent)); [discriminate|].
  cbn. intros [= <-]. apply analyse_coherent.
Qed.

Lemma system_step_coherent {B : Builtins} (c : Component) (x : Happening) :
  hook_coherent (hook c) -> hook_coherent (hook (system_step c x)).
Proof.
  intro C. unfold system_step.
  assert (K : forall i o,
             (forall data, o = Resolves (Some data) None ->
                           result_coherent data) ->
             hook_coherent (hook (captureAndAnalyze_settle i o c))).
  { intros i o G. unfold captureAndAnalyze_settle.
    destruct (nth_error (inFlight c) i); [|exact C].
    destruct (settle_hook_cases (hook c) o) as [(N & st & E)|(data & -> & E)].
    - pose proof (settle_failure_coherent (hook c) o C N) as F.
      destruct (analyzeFrame_settle (hook c) o) as [h' r]. exact F.
    - rewrite E. cbn. apply success_coherent; [exact C|]. now apply G. }
  destruct x as [granted| |ready|i frame apiKey gemini|i message];
    cbn [event_of step].
  - unfold startCamera. destruct granted; exact C.
  - apply initialHook_coherent.
  - unfold captureAndAnalyze_call.
    destruct (negb (isActive c)); [exact C|]. destruct (negb ready); [exact C|].
    cbn. apply with_state_coherent; try assumption; try reflexivity;
      discriminate.
  - apply K. intros data E. exact (served_coherent _ _ _ _ E).
  - apply K. discriminate.
Qed.

Lemma system_run_coherent {B : Builtins} (xs : list Happening) :
  hook_coherent (hook (system_run initialComponent xs)).
Proof.
  assert (G : forall c, hook_coherent (hook c) ->
                        hook_coherent (hook (system_run c xs))).
  { unfold system_run. induction xs as [|x xs IH]; intros c C; cbn.
    - exact C.
    - apply IH. now apply system_step_coherent. }
  apply G. apply initialHook_coherent.
Qed.

Lemma Set_from_nonempty (array : list string) :
  array <> [] -> Set_from array <> [].
Proof.
  destruct array as [|f fs]; [contradiction|]. intros _ E.
  destruct (fold_Set_add (f :: fs) [] (NoDup_nil _)) as [_ M].
  unfold Set_from in E. specialize (M f). rewrite E in M.
  apply M. right. now left.
Qed.

(** Whatever the model replies, whenever the calls settle and however
    often the camera is started and stopped, the snapshot given to the
    vote reports a score from 0 to 100 that is at least the score on
    display; when it reports the vote as flagged it also reports anomalies
    and names at least one flag; and whenever the display says [flagged],
    so does the snapshot. *)
Theorem snapshot_sound {B : Builtins} (xs : list Happening) :
  let h := hook (system_run initialComponent xs) in
  let snapshot := getVoteRiskData h in
  0 <= VoteRiskData.riskScore snapshot <= 100
  /\ AnomalyState.riskScore (state h) <= VoteRiskData.riskScore snapshot
  /\ (VoteRiskData.isFlagged snapshot = true ->
      VoteRiskData.anomalyFlags snapshot = true
      /\ VoteRiskData.flagDetails snapshot <> [])
  /\ (AnomalyState.status (state h) = flagged ->
      VoteRiskData.isFlagged snapshot = true).
Proof.
  cbv zeta.
  destruct (system_run_coherent xs) as (R & M & F & _ & _ & SF & _).
  cbn. split; [lia|]. split; [lia|]. split.
  - intro P. apply Z.ltb_lt in P.
    assert (N : flagHistoryRef (hook (system_run initialComponent xs)) <> [])
      by (apply F; lia).
    split; [|now apply Set_from_nonempty].
    destruct (flagHistoryRef (hook (system_run initialComponent xs)));
      [contradiction | reflexivity].
  - intro S. apply Z.ltb_lt. specialize (SF S). lia.
Qed.



(** After a successful cycle against the handler, the panel saying that
    no anomaly was detected and the panel listing the anomalies are
    rendered together exactly when the full view is rendered, a face is
    detected and the score is from 1 to 25. *)
Theorem both_panels_iff {B : Builtins}
    (h : Hook) (g : jsval) (prior : option PreviousState.t)
    (compact previewVisible : bool) (hasPermission : option bool) :
  let data := analyse g prior in
  let v := render compact previewVisible hasPermission
             (state (analyzeFrame_success h data)) in
  View.verificationActive v = true /\ View.anomalyAlert v = true
  <-> full_view compact hasPermission = true
      /\ AnalysisResult.faceDetected data = true
      /\ 0 < AnalysisResult.riskScore data <= 25.
Proof.
  cbv zeta. destruct (analyse_coherent g prior) as (D & Z0 & _ & ST).
  unfold render, full_view.
  destruct hasPermission as [[]|]; destruct compact; cbn;
    try (split; [intros [N _]; discriminate N | intros [N _]; discriminate N]).
  all: rewrite ST; unfold determineStatus;
    destruct (AnalysisResult.anomalyFlags (analyse g prior)) as [|f fs] eqn:F;
    [ assert (AnalysisResult.riskScore (analyse g prior) = 0) as -> by tauto;
      cbn; split; [intros [_ N]; discriminate N | intros (_ & _ & N); lia]
    | assert (AnalysisResult.riskScore (analyse g prior) <> 0)
        by (intro Z; apply Z0 in Z; discriminate Z);
      destruct (50 <? AnalysisResult.riskScore (analyse g prior)) eqn:H50;
      [ apply Z.ltb_lt in H50; cbn;
        split; [intros [N _]; discriminate N | intros (_ & _ & N); lia]
      | apply Z.ltb_ge in H50;
        destruct (25 <? AnalysisResult.riskScore (analyse g prior)) eqn:H25;
        [ apply Z.ltb_lt in H25; cbn;
          split; [intros [N _]; discriminate N | intros (_ & _ & N); lia]
        | apply Z.ltb_ge in H25; cbn;
          split; [ intros [N _]; repeat split; [exact N | lia | lia]
                 | intros (_ & N & _); tauto ] ] ] ].
Qed.

(** The two panels do show together: a lone voter in a frame the model
    calls unstable, in the full view. *)
Example both_panels_shown :
  let data := analyse (B := reference_builtins)
                (observation_object
                   {| faceCount := 1; cameraBlocked := false;
                      highMotion := false; environmentStable := false;
                      confidence := 60 |}) None in
  let st := state (analyzeFrame_success initialHook data) in
  let v := render false true (Some true) st in
  View.verificationActive v = true
  /\ View.anomalyAlert v = true
  /\ AnomalyState.anomalyFlags st = ["Environment instability detected"]
  /\ View.anomalyAlert (render true true (Some true) st) = false
  /\ View.riskBadge (render true true (Some true) st) = true.
Proof. repeat split; reflexivity. Qed.

(** ** Losing a face from one cycle to the next *)






(** ** The session after several cycles *)

Lemma settle_all_summary (results : list AnalysisResult.t) (h : Hook) :
  analysisCountRef (settle_all h results)
  = analysisCountRef h + Z.of_nat (List.length results)
  /\ maxRiskScoreRef (settle_all h results)
     = fold_right Z.max (maxRiskScoreRef h)
         (map AnalysisResult.riskScore results)
  /\ flagHistoryRef (settle_all h results)
     = (flagHistoryRef h
        ++ List.concat (map AnalysisResult.anomalyFlags results))%list.
Proof.
  unfold settle_all. revert h.
  induction results as [|data results IH]; intro h.
  - cbn. rewrite app_nil_r. repeat split; lia.
  - cbn [fold_left]. destruct (IH (analyzeFrame_success h data)) as (C & M & F).
    rewrite C, M, F. cbn [analyzeFrame_success analysisCountRef
                          maxRiskScoreRef flagHistoryRef map fold_right
                          List.concat List.length].
    split; [lia|]. split.
    + generalize (map AnalysisResult.riskScore results) as l.
      induction l as [|x l IHl]; cbn; [lia|]. rewrite IHl. lia.
    + destruct (AnalysisResult.anomalyFlags data) as [|f fs]; cbn.
      * reflexivity.
      * now rewrite <- app_assoc.
Qed.

(** After any number of successful cycles the analysis count has grown by
    their number, the maximal score is the largest of the previous maximum
    and their scores, and the distinct flags of the snapshot are exactly
    those held before and those of the results. *)
Theorem session_after_cycles (h : Hook) (results : list AnalysisResult.t) :
  let h' := settle_all h results in
  analysisCountRef h' = analysisCountRef h + Z.of_nat (List.length results)
  /\ maxRiskScoreRef h'
     = fold_right Z.max (maxRiskScoreRef h)
         (map AnalysisResult.riskScore results)
  /\ (forall data, In data results ->
                   AnalysisResult.riskScore data <= maxRiskScoreRef h')
  /\ (forall f,
         In f (VoteRiskData.flagDetails (getVoteRiskData h'))
         <-> In f (flagHistoryRef h)
             \/ exists data, In data results
                             /\ In f (AnalysisResult.anomalyFlags data)).
Proof.
  cbv zeta. destruct (settle_all_summary results h) as (C & M & F).
  split; [exact C|]. split; [exact M|]. split.
  - rewrite M. clear. induction results as [|d results IH]; intros data I;
      [contradiction|].
    cbn. destruct I as [->|I]; [lia|]. specialize (IH data I). lia.
  - intro f. cbn [getVoteRiskData VoteRiskData.flagDetails].
    destruct (fold_Set_add (flagHistoryRef (settle_all h results)) []
                (NoDup_nil _)) as [_ S].
    unfold Set_from. rewrite S, F, in_app_iff, in_concat. cbn [In].
    split.
    + intros [[]|[I|(l & L & I)]]; [now left|].
      apply in_map_iff in L as (data & <- & D). right. now exists data.
    + intros [I|(data & D & I)]; right; [now left|].
      right. exists (AnalysisResult.anomalyFlags data).
      split; [now apply in_map | exact I].
Qed.


